(** * The unified logging adapter of [templates/logging/logging.py]

    A shallow embedding of [UnifiedExperiment] and [UnifiedLogger]: Python
    values as an inductive type, dictionaries as insertion-ordered association
    lists, objects in a heap addressed by references, and the calls made on
    [wandb], on the Lightning loggers and on the experiment handle recorded in
    a trace. *)

From Stdlib Require Import ZArith String List Floats.PrimFloat Lia.
From stdpp Require Import base list strings.
Import ListNotations.

Set Warnings "-inexact-float,-register-all".
Open Scope string_scope.
Open Scope list_scope.

(** ** Python values *)

(** What [Axes.get_figure()] finds: the axes sit on a figure, on a
    sub-figure of one, or on nothing. *)
Inductive axes_parent : Type :=
| OnFigure (fig : nat)
| OnSubFigure (sub : nat)
| Detached.

(** The values a log entry may hold.  A nested mapping is kept by value: the
    adapter only ever reads nested mappings, the one dictionary it mutates is
    the top-level entry, which lives in the heap (see [obj] below).  A
    dictionary in the heap that is at the same time a value inside another
    one is therefore not represented; no statement below is about the
    contents of a nested mapping after a call. *)
Inductive pyobj : Type :=
| PyNone
| PyBool (b : bool)
| PyInt (n : Z)
| PyFloat (x : float)
| PyComplex (re im : float)
| NpFloat (x : float)            (* a numpy scalar, such as np.float32 *)
| PyStr (s : string)
| PyBytes (b : string)
| PyMemoryview (b : string)      (* memoryview(b) *)
| PyAxes (parent : axes_parent)  (* matplotlib.axes.Axes *)
| PyFigure (fig : nat)           (* matplotlib.figure.Figure *)
| PySubFigure (sub : nat)        (* matplotlib.figure.SubFigure, not a Figure *)
| PyNdarray (arr : nat)          (* np.ndarray handed in by the caller *)
| PyImage (img : nat)            (* PIL.Image.Image *)
| NpArray (src : pyobj)          (* the np.ndarray that np.array(src) builds *)
| WandbImage (src : pyobj)       (* wandb.Image(src) *)
| PyDict (items : list (string * pyobj)).

(** A Python [dict] with string keys: the bindings in insertion order. *)
Definition pydict : Type := list (string * pyobj).

Definition isinstance_dict (v : pyobj) : bool :=
  match v with PyDict _ => true | _ => false end.
Definition isinstance_Axes (v : pyobj) : bool :=
  match v with PyAxes _ => true | _ => false end.
Definition isinstance_Figure (v : pyobj) : bool :=
  match v with PyFigure _ => true | _ => false end.
Definition isinstance_ndarray (v : pyobj) : bool :=
  match v with PyNdarray _ | NpArray _ => true | _ => false end.
Definition isinstance_Image (v : pyobj) : bool :=
  match v with PyImage _ => true | _ => false end.
Definition isinstance_str (v : pyobj) : bool :=
  match v with PyStr _ => true | _ => false end.

(** [np.isscalar]: true on numpy scalars and on the Python types [int],
    [float], [complex], [bool], [bytes], [str] and [memoryview]; false on
    the other values of [pyobj]. *)
Definition np_isscalar (v : pyobj) : bool :=
  match v with
  | PyBool _ | PyInt _ | PyFloat _ | PyComplex _ _ | NpFloat _
  | PyStr _ | PyBytes _ | PyMemoryview _ => true
  | _ => false
  end.

(** [Axes.get_figure()]: the figure or the sub-figure the axes sit on, [None]
    when they sit on nothing. *)
Definition get_figure (v : pyobj) : pyobj :=
  match v with
  | PyAxes (OnFigure f) => PyFigure f
  | PyAxes (OnSubFigure s) => PySubFigure s
  | _ => PyNone
  end.

Definition np_array (v : pyobj) : pyobj := NpArray v.
Definition wandb_Image (v : pyobj) : pyobj := WandbImage v.

(** Truth value of a string used as a condition: non-empty. *)
Definition truthy (s : string) : bool := negb (String.eqb s "").

(** ** Dictionaries *)

Fixpoint dict_get (d : pydict) (k : string) : option pyobj :=
  match d with
  | [] => None
  | (k', v) :: rest => if String.eqb k' k then Some v else dict_get rest k
  end.

(** [d[k] = v]: an existing key keeps its position and takes the new value, a
    new key goes last. *)
Fixpoint dict_set (d : pydict) (k : string) (v : pyobj) : pydict :=
  match d with
  | [] => [(k, v)]
  | (k', v') :: rest =>
      if String.eqb k' k then (k', v) :: rest else (k', v') :: dict_set rest k v
  end.

(** [d.update(other)] *)
Definition dict_update (d other : pydict) : pydict :=
  fold_left (fun acc kv => dict_set acc (fst kv) (snd kv)) other d.

(** [del d[k]] *)
Definition dict_remove (d : pydict) (k : string) : pydict :=
  List.filter (fun kv => negb (String.eqb (fst kv) k)) d.

Definition keys (d : pydict) : list string := map fst d.

(** A dictionary binds each key once. *)
Definition dict_wf (d : pydict) : Prop := NoDup (keys d).

(** ** [UnifiedExperiment._flatten_dict] *)

(** [f"{parent_key}{separator}{k}" if parent_key else k] *)
Definition new_key (parent_key separator k : string) : string :=
  if truthy parent_key then parent_key +:+ separator +:+ k else k.

(** The function recurses on the dictionary object [d]; anything that is not a
    dictionary has no items to visit. *)
Fixpoint flatten_obj (d : pyobj) (parent_key separator : string) {struct d} : pydict :=
  match d with
  | PyDict entries =>
      fold_left
        (fun items kv =>
           let k := fst kv in
           let v := snd kv in
           match v with
           | PyDict _ =>
               dict_update items (flatten_obj v (new_key parent_key separator k) separator)
           | _ => dict_set items (new_key parent_key separator k) v
           end)
        entries []
  | _ => []
  end.

Definition _flatten_dict (d : pydict) (parent_key separator : string) : pydict :=
  flatten_obj (PyDict d) parent_key separator.

(** ** Backends, objects and the heap *)

(** The Lightning logger a [UnifiedLogger] owns, with the keyword arguments it
    was built from. *)
Inductive backend_logger : Type :=
| WandbLogger (kwargs : pydict)
| TensorBoardLogger (kwargs : pydict).

(** The native experiment handle of a backend logger ([logger.experiment]): a
    [wandb] run or a [SummaryWriter]. *)
Inductive handle : Type :=
| ExperimentOf (lg : backend_logger).

Definition logger_experiment (lg : backend_logger) : handle := ExperimentOf lg.

(** [hasattr(logger, "save")]: both loggers inherit [save] from Lightning's
    [Logger]. *)
Definition hasattr_save (lg : backend_logger) : bool :=
  match lg with
  | WandbLogger _ => true
  | TensorBoardLogger _ => true
  end.

(** References into the heap. *)
Abbreviation loc := nat (only parsing).

Module UnifiedExperiment.
Record attrs : Type := Build
  { _backend : string;
    _experiment : handle }.
End UnifiedExperiment.

Module UnifiedLogger.
Record attrs : Type := Build
  { _backend : string;
    _logger : backend_logger;
    _experiment : loc;            (* reference to the UnifiedExperiment *)
    log_base_model : bool }.
End UnifiedLogger.

(** What a reference may point to. *)
Inductive obj : Type :=
| ODict (d : pydict)
| OExperiment (a : UnifiedExperiment.attrs)
| OLogger (a : UnifiedLogger.attrs).

(** The calls the adapter makes on code outside this repository. *)
Inductive call : Type :=
| wandb_login (key : option string)
| WandbLogger_new (kwargs : pydict)
| TensorBoardLogger_new (kwargs : pydict)
| experiment_log (exp : handle) (data : pydict)
| add_figure (exp : handle) (tag : string) (figure : pyobj) (global_step : pyobj)
| add_image (exp : handle) (tag : string) (img_tensor : pyobj) (global_step : pyobj)
    (dataformats : string)
| add_scalar (exp : handle) (tag : string) (scalar_value : pyobj) (global_step : pyobj)
| logger_log_hyperparams (lg : backend_logger) (params : pyobj)
| logger_log_metrics (lg : backend_logger) (metrics : pyobj) (step : pyobj)
| logger_save (lg : backend_logger)
| wandb_finish.

Record world : Type := World
  { heap : list obj;                     (* objects, by reference *)
    trace : list call;                   (* calls made so far, oldest first *)
    environ : list (string * string) }.  (* os.environ *)

Inductive exn : Type :=
| ValueError (msg : string)
| AttributeError (attr : string).

(** ** The monad of the embedding: state and exceptions *)

Definition M (A : Type) : Type := world -> (exn + A) * world.

Definition ret {A} (a : A) : M A := fun w => (inr a, w).

Definition bind {A B} (m : M A) (k : A -> M B) : M B :=
  fun w =>
    match m w with
    | (inr a, w') => k a w'
    | (inl e, w') => (inl e, w')
    end.

Definition raise {A} (e : exn) : M A := fun w => (inl e, w).

Notation "x <- m ;; k" := (bind m (fun x => k))
  (at level 100, m at next level, right associativity).
Notation "m ;; k" := (bind m (fun _ => k))
  (at level 100, right associativity).

Fixpoint for_each {A} (xs : list A) (body : A -> M unit) : M unit :=
  match xs with
  | [] => ret tt
  | x :: rest => body x ;; for_each rest body
  end.

Definition emit (c : call) : M unit :=
  fun w => (inr tt, World (heap w) (trace w ++ [c]) (environ w)).

Definition alloc (o : obj) : M loc :=
  fun w => (inr (length (heap w)), World (heap w ++ [o]) (trace w) (environ w)).

(** [os.getenv(name)] *)
Definition getenv (name : string) : M (option string) :=
  fun w =>
    (inr (snd <$> find (fun kv => String.eqb (fst kv) name) (environ w)), w).

(** Reading a dictionary through a reference; [attr] is the method the caller
    was after, which any other object lacks. *)
Definition load_dict (l : loc) (attr : string) : M pydict :=
  fun w =>
    match heap w !! l with
    | Some (ODict d) => (inr d, w)
    | _ => (inl (AttributeError attr), w)
    end.

Definition store_dict (l : loc) (attr : string) (d : pydict) : M unit :=
  fun w =>
    match heap w !! l with
    | Some (ODict _) => (inr tt, World (<[l := ODict d]> (heap w)) (trace w) (environ w))
    | _ => (inl (AttributeError attr), w)
    end.

Definition load_experiment (self : loc) : M UnifiedExperiment.attrs :=
  fun w =>
    match heap w !! self with
    | Some (OExperiment a) => (inr a, w)
    | _ => (inl (AttributeError "_backend"), w)
    end.

Definition load_logger (self : loc) : M UnifiedLogger.attrs :=
  fun w =>
    match heap w !! self with
    | Some (OLogger a) => (inr a, w)
    | _ => (inl (AttributeError "_logger"), w)
    end.

(** [data.pop(key, default)] on the dictionary behind [data] *)
Definition dict_pop (data : loc) (key : string) (default : pyobj) : M pyobj :=
  d <- load_dict data "pop" ;;
  match dict_get d key with
  | Some v => store_dict data "pop" (dict_remove d key) ;; ret v
  | None => ret default
  end.

(** [data[key] = value] on the dictionary behind [data] *)
Definition dict_setitem (data : loc) (key : string) (value : pyobj) : M unit :=
  d <- load_dict data "__setitem__" ;;
  store_dict data "__setitem__" (dict_set d key value).

(** [data.items()] *)
Definition dict_items (data : loc) : M pydict := load_dict data "items".

(** ** [UnifiedExperiment] *)

Definition UnifiedExperiment_init (experiment : handle) (backend : string) : M loc :=
  alloc (OExperiment (UnifiedExperiment.Build backend experiment)).

(** One turn of the loop of the [wandb] branch: [data] is the flattened
    dictionary the loop runs over. *)
Definition wandb_item (data : loc) (kv : string * pyobj) : M unit :=
  let key := fst kv in
  let value := snd kv in
  let value := if isinstance_Axes value then get_figure value else value in
  if isinstance_Figure value || isinstance_Image value
  then dict_setitem data key (wandb_Image value)
  else ret tt.

(** One turn of the loop of the [tensorboard] branch. *)
Definition tensorboard_item (experiment : handle) (step : pyobj) (kv : string * pyobj)
  : M unit :=
  let key := fst kv in
  let value := snd kv in
  let value := if isinstance_Axes value then get_figure value else value in
  if isinstance_Figure value then
    emit (add_figure experiment key value step)
  else if isinstance_ndarray value then
    emit (add_image experiment key value step "HWC")
  else if isinstance_Image value then
    emit (add_image experiment key (np_array value) step "HWC")
  else if np_isscalar value && negb (isinstance_str value) then
    emit (add_scalar experiment key value step)
  else
    ret tt.

(** [UnifiedExperiment.log(self, data)].  [data] is the caller's dictionary;
    after the second line the name [data] denotes the new dictionary that
    [_flatten_dict] returns.  The attributes of [self] are read once: nothing
    in between writes them. *)
Definition UnifiedExperiment_log (self : loc) (data : loc) : M unit :=
  step <- dict_pop data "epoch" PyNone ;;
  d <- load_dict data "items" ;;
  data <- alloc (ODict (_flatten_dict d "" "/")) ;;
  me <- load_experiment self ;;
  if String.eqb (UnifiedExperiment._backend me) "wandb" then
    items <- dict_items data ;;
    for_each items (wandb_item data) ;;
    payload <- load_dict data "items" ;;
    emit (experiment_log (UnifiedExperiment._experiment me) payload)
  else if String.eqb (UnifiedExperiment._backend me) "tensorboard" then
    items <- dict_items data ;;
    for_each items (tensorboard_item (UnifiedExperiment._experiment me) step)
  else
    ret tt.

(** ** [UnifiedLogger] *)

(** [UnifiedLogger.__init__(self, backend, **kwargs)].  The object is handed
    to the caller only when the constructor returns, so its attributes are
    written in one step at the end.  The calls on [wandb] and on Lightning
    are recorded as returning: when [wandb.login] or a logger's constructor
    raises (a missing argument, a refused key), the constructor raises with
    it, and that outcome is not among those of this definition.  What is
    stated of a logger is stated of one whose constructor returned. *)
Definition UnifiedLogger_init (backend : string) (kwargs : pydict) : M loc :=
  logger <- (if String.eqb backend "wandb" then
               key <- getenv "WANDB_API_KEY" ;;
               emit (wandb_login key) ;;
               emit (WandbLogger_new kwargs) ;;
               ret (WandbLogger kwargs)
             else if String.eqb backend "tensorboard" then
               emit (TensorBoardLogger_new kwargs) ;;
               ret (TensorBoardLogger kwargs)
             else
               raise (ValueError ("Unsupported backend: " +:+ backend))) ;;
  experiment <- UnifiedExperiment_init (logger_experiment logger) backend ;;
  alloc (OLogger (UnifiedLogger.Build backend logger experiment
                    (negb (String.eqb backend "tensorboard")))).

(** The [experiment] property. *)
Definition experiment (self : loc) : M loc :=
  me <- load_logger self ;;
  ret (UnifiedLogger._experiment me).

Definition UnifiedLogger_log (self : loc) (data : loc) : M unit :=
  me <- load_logger self ;;
  UnifiedExperiment_log (UnifiedLogger._experiment me) data.

Definition log_hyperparams (self : loc) (params : pyobj) : M unit :=
  me <- load_logger self ;;
  if UnifiedLogger.log_base_model me
  then emit (logger_log_hyperparams (UnifiedLogger._logger me) params)
  else ret tt.

Definition log_metrics (self : loc) (metrics : pyobj) (step : pyobj) : M unit :=
  me <- load_logger self ;;
  emit (logger_log_metrics (UnifiedLogger._logger me) metrics step).

Definition save (self : loc) : M unit :=
  me <- load_logger self ;;
  if hasattr_save (UnifiedLogger._logger me)
  then emit (logger_save (UnifiedLogger._logger me))
  else ret tt.

Definition close (self : loc) : M unit :=
  me <- load_logger self ;;
  if String.eqb (UnifiedLogger._backend me) "wandb"
  then emit wandb_finish
  else ret tt.

(** The operations a caller may run on a logger once it is built. *)
Inductive operation : Type :=
| Log (data : loc)
| LogHyperparams (params : pyobj)
| LogMetrics (metrics : pyobj) (step : pyobj)
| Save
| Close.

Definition run_operation (self : loc) (op : operation) : M unit :=
  match op with
  | Log data => UnifiedLogger_log self data
  | LogHyperparams params => log_hyperparams self params
  | LogMetrics metrics step => log_metrics self metrics step
  | Save => save self
  | Close => close self
  end.

(** What a caller does between construction and the end of the run: build a
    new entry, or run an operation of the logger. *)
Inductive action : Type :=
| NewEntry (d : pydict)
| Call (op : operation).

Definition run_action (self : loc) (a : action) : M unit :=
  match a with
  | NewEntry d => alloc (ODict d) ;; ret tt
  | Call op => run_operation self op
  end.

(** A caller's session: the actions one after the other; a caller that
    catches an exception goes on with the next action. *)
Fixpoint run_session (self : loc) (acts : list action) (w : world) : world :=
  match acts with
  | [] => w
  | a :: rest => run_session self rest (snd (run_action self a w))
  end.

Definition empty_world : world := World [] [] [].

(** The calls an action adds to the trace of [w]. *)
Definition calls_of {A} (m : M A) (w : world) : list call :=
  drop (length (trace w)) (trace (snd (m w))).

(** ** Flattening as the specification words it *)

(** The leaves of a nested mapping, each with the keys on the way down to it,
    in traversal order. *)
Fixpoint leaf_paths (o : pyobj) : list (list string * pyobj) :=
  match o with
  | PyDict entries =>
      flat_map
        (fun kv =>
           match snd kv with
           | PyDict _ => map (fun pl => (fst kv :: fst pl, snd pl)) (leaf_paths (snd kv))
           | _ => [([fst kv], snd kv)]
           end)
        entries
  | _ => []
  end.

(** A leaf under its path-style key: the keys of the path joined with the
    separator. *)
Definition renamed (separator : string) (pl : list string * pyobj) : string * pyobj :=
  (String.concat separator (fst pl), snd pl).

(** The flattened mapping of the specification: one binding per leaf. *)
Definition flatten_spec (d : pydict) (separator : string) : pydict :=
  map (renamed separator) (leaf_paths (PyDict d)).

(** A mapping without nested mappings. *)
Definition flat (d : pydict) : Prop :=
  Forall (fun kv => isinstance_dict (snd kv) = false) d.

(** ** Reading the trace *)

(** The [tag] argument of a call on the [SummaryWriter]. *)
Definition call_tag (c : call) : option string :=
  match c with
  | add_figure _ tag _ _ => Some tag
  | add_image _ tag _ _ _ => Some tag
  | add_scalar _ tag _ _ => Some tag
  | _ => None
  end.

Definition has_tag (key : string) (c : call) : bool :=
  match call_tag c with
  | Some tag => String.eqb tag key
  | None => false
  end.

(** The global step a call on the experiment handle carries; [Run.log(data)]
    is called without one. *)
Definition call_step (c : call) : option pyobj :=
  match c with
  | add_figure _ _ _ global_step => Some global_step
  | add_image _ _ _ global_step _ => Some global_step
  | add_scalar _ _ _ global_step => Some global_step
  | _ => None
  end.

(** A number: Python's [bool], [int], [float] and [complex], and numpy's
    numeric scalars. *)
Definition numeric (v : pyobj) : bool :=
  match v with
  | PyBool _ | PyInt _ | PyFloat _ | PyComplex _ _ | NpFloat _ => true
  | _ => false
  end.

(** The recognized kinds as the specification lists them: plottable (axes or
    figure), array, image, numeric scalar that is not a string. *)
Definition recognized_kind (v : pyobj) : bool :=
  isinstance_Axes v || isinstance_Figure v || isinstance_ndarray v
  || isinstance_Image v || numeric v.

(** The leaves of those kinds that the flat-stream backend has a call for:
    of the axes, those whose [get_figure()] is a figure. *)
Definition recognized (v : pyobj) : bool :=
  isinstance_Figure v
  || (isinstance_Axes v && isinstance_Figure (get_figure v))
  || isinstance_ndarray v || isinstance_Image v || numeric v.

(** The leaves no test of the flat-stream branch accepts: not axes, figure,
    array or image, and failing [np.isscalar(value) and not
    isinstance(value, str)]. *)
Definition ignored (v : pyobj) : bool :=
  negb (isinstance_Axes v || isinstance_Figure v || isinstance_ndarray v
        || isinstance_Image v)
  && (negb (np_isscalar v) || isinstance_str v).

(** The dispatch table of the flat-stream backend: the calls one leaf of the
    flattened entry stands for. *)
Definition leaf_dispatch (experiment : handle) (step : pyobj) (kv : string * pyobj)
  : list call :=
  match snd kv with
  | PyFigure _ => [add_figure experiment (fst kv) (snd kv) step]
  | PyAxes (OnFigure f) => [add_figure experiment (fst kv) (PyFigure f) step]
  | PyNdarray _ | NpArray _ => [add_image experiment (fst kv) (snd kv) step "HWC"]
  | PyImage _ => [add_image experiment (fst kv) (NpArray (snd kv)) step "HWC"]
  | PyBool _ | PyInt _ | PyFloat _ | PyComplex _ _ | NpFloat _
  | PyBytes _ | PyMemoryview _ => [add_scalar experiment (fst kv) (snd kv) step]
  | _ => []
  end.

(** What the [wandb] branch leaves under a key of the flattened entry. *)
Definition wandb_value (v : pyobj) : pyobj :=
  match v with
  | PyAxes (OnFigure f) => WandbImage (PyFigure f)
  | PyFigure _ | PyImage _ => WandbImage v
  | _ => v
  end.

(** ** Definitions for the proofs *)

(** One turn of the loop of [_flatten_dict]. *)
Definition flatten_step (parent_key separator : string) (items : pydict)
  (kv : string * pyobj) : pydict :=
  match snd kv with
  | PyDict _ =>
      dict_update items
        (flatten_obj (snd kv) (new_key parent_key separator (fst kv)) separator)
  | _ => dict_set items (new_key parent_key separator (fst kv)) (snd kv)
  end.

(** The bindings the loop visits, one after the other, before any of them is
    stored. *)
Fixpoint visited (o : pyobj) (parent_key separator : string) : pydict :=
  match o with
  | PyDict entries =>
      flat_map
        (fun kv =>
           match snd kv with
           | PyDict _ => visited (snd kv) (new_key parent_key separator (fst kv)) separator
           | _ => [(new_key parent_key separator (fst kv), snd kv)]
           end)
        entries
  | _ => []
  end.

Definition visited_step (parent_key separator : string) (kv : string * pyobj)
  : pydict :=
  match snd kv with
  | PyDict _ => visited (snd kv) (new_key parent_key separator (fst kv)) separator
  | _ => [(new_key parent_key separator (fst kv), snd kv)]
  end.

(** One turn of the loop of the [wandb] branch, on the contents of the
    dictionary it runs over. *)
Definition wandb_step (cur : pydict) (kv : string * pyobj) : pydict :=
  match snd kv with
  | PyAxes (OnFigure _) | PyFigure _ | PyImage _ =>
      dict_set cur (fst kv) (wandb_value (snd kv))
  | _ => cur
  end.

Definition wandb_entry (kv : string * pyobj) : string * pyobj :=
  (fst kv, wandb_value (snd kv)).

(** The step, the flattened entry, the payload and the calls of one [log] on
    an entry [d]. *)
Definition step_of (d : pydict) : pyobj := default PyNone (dict_get d "epoch").

Definition flattened (d : pydict) : pydict :=
  _flatten_dict (dict_remove d "epoch") "" "/".

Definition payload_of (backend : string) (d : pydict) : pydict :=
  if String.eqb backend "wandb" then map wandb_entry (flattened d) else flattened d.

Definition log_calls (me : UnifiedExperiment.attrs) (d : pydict) : list call :=
  if String.eqb (UnifiedExperiment._backend me) "wandb" then
    [experiment_log (UnifiedExperiment._experiment me) (map wandb_entry (flattened d))]
  else if String.eqb (UnifiedExperiment._backend me) "tensorboard" then
    flat_map (leaf_dispatch (UnifiedExperiment._experiment me) (step_of d)) (flattened d)
  else [].

(** Instances of the two classes, as opposed to dictionaries. *)
Definition is_instance (o : obj) : bool :=
  match o with
  | ODict _ => false
  | _ => true
  end.

(** Every instance of [w] is still there in [w'], with the same attributes. *)
Definition stable (w w' : world) : Prop :=
  forall l o, heap w !! l = Some o -> is_instance o = true -> heap w' !! l = Some o.

Definition keeps {A} (m : M A) : Prop := forall w, stable w (snd (m w)).

(** The attributes the constructor gives a logger. *)
Definition built (backend : string) (lg : backend_logger) (adapter : loc)
  : UnifiedLogger.attrs :=
  UnifiedLogger.Build backend lg adapter (negb (String.eqb backend "tensorboard")).

Definition tensorboard_adapter (exp : handle) : obj :=
  OExperiment (UnifiedExperiment.Build "tensorboard" exp).

Definition wandb_adapter (exp : handle) : obj :=
  OExperiment (UnifiedExperiment.Build "wandb" exp).

(** The worlds of the examples: an adapter at reference 0 and the caller's
    entry at reference 1. *)
Definition writer : handle := ExperimentOf (TensorBoardLogger []).

Definition run : handle := ExperimentOf (WandbLogger []).

Definition tensorboard_world (d : pydict) : world :=
  World [tensorboard_adapter writer; ODict d] [] [].

Definition wandb_world (d : pydict) : world :=
  World [wandb_adapter run; ODict d] [] [].

(** ** The caller's dictionaries over a session *)

(** Every dictionary of [w] is found in [w'] as it was, or without its
    top-level ["epoch"]. *)
Definition epoch_popped (w w' : world) : Prop :=
  forall l d,
    heap w !! l = Some (ODict d) ->
    heap w' !! l = Some (ODict d)
    \/ heap w' !! l = Some (ODict (dict_remove d "epoch")).

(** ** Facts about dictionaries *)

Lemma append_assoc (a b c : string) : (a +:+ b) +:+ c = a +:+ b +:+ c.
Proof.
  induction a as [|ch a IH]; [reflexivity|].
  change (String ch ((a +:+ b) +:+ c) = String ch (a +:+ b +:+ c)). now rewrite IH.
Qed.

Lemma append_nonempty (a b : string) : a <> "" -> a +:+ b <> "".
Proof. destruct a as [|ch a]; [congruence|]. intros _. discriminate. Qed.

Lemma truthy_true (s : string) : s <> "" -> truthy s = true.
Proof.
  intros H. unfold truthy. destruct (String.eqb_spec s ""); [contradiction | reflexivity].
Qed.

Lemma new_key_top (separator k : string) : new_key "" separator k = k.
Proof. reflexivity. Qed.

Lemma new_key_nested (p separator k : string) :
  p <> "" -> new_key p separator k = p +:+ separator +:+ k.
Proof. intros H. unfold new_key. now rewrite truthy_true. Qed.

Lemma new_key_nonempty (p separator k : string) :
  p <> "" -> new_key p separator k <> "".
Proof. intros H. rewrite new_key_nested by assumption. now apply append_nonempty. Qed.

Lemma keys_app (d1 d2 : pydict) : keys (d1 ++ d2) = keys d1 ++ keys d2.
Proof. unfold keys. apply List.map_app. Qed.

Lemma dict_get_remove_eq (d : pydict) (k : string) : dict_get (dict_remove d k) k = None.
Proof.
  induction d as [|[k' v] d IH]; simpl; [reflexivity|].
  destruct (String.eqb_spec k' k) as [->|Hne]; simpl; [exact IH|].
  destruct (String.eqb_spec k' k); [contradiction | exact IH].
Qed.

Lemma dict_get_remove_ne (d : pydict) (k k' : string) :
  k' <> k -> dict_get (dict_remove d k) k' = dict_get d k'.
Proof.
  intros Hne. induction d as [|[k0 v] d IH]; simpl; [reflexivity|].
  destruct (String.eqb_spec k0 k) as [->|Hk]; simpl.
  - destruct (String.eqb_spec k k'); [congruence | exact IH].
  - now rewrite IH.
Qed.

Lemma dict_remove_absent (d : pydict) (k : string) :
  dict_get d k = None -> dict_remove d k = d.
Proof.
  induction d as [|[k' v] d IH]; simpl; [reflexivity|].
  destruct (String.eqb_spec k' k); simpl; [discriminate|].
  intros H. now rewrite IH.
Qed.

Lemma dict_set_fresh (d : pydict) (k : string) (v : pyobj) :
  ~ In k (keys d) -> dict_set d k v = d ++ [(k, v)].
Proof.
  induction d as [|[k' v'] d IH]; simpl; [reflexivity|].
  intros Hk. destruct (String.eqb_spec k' k) as [->|Hne].
  - exfalso. apply Hk. now left.
  - f_equal. apply IH. intros Hin. apply Hk. now right.
Qed.

Lemma keys_dict_set (d : pydict) (k : string) (v : pyobj) :
  keys (dict_set d k v) = if existsb (String.eqb k) (keys d) then keys d else keys d ++ [k].
Proof.
  induction d as [|[k' v'] d IH]; simpl; [reflexivity|].
  rewrite (String.eqb_sym k k').
  destruct (String.eqb_spec k' k) as [->|Hne]; simpl; [reflexivity|].
  rewrite IH. now destruct (existsb (String.eqb k) (keys d)).
Qed.

Lemma dict_set_wf (d : pydict) (k : string) (v : pyobj) :
  dict_wf d -> dict_wf (dict_set d k v).
Proof.
  unfold dict_wf. intros Hd. rewrite keys_dict_set.
  destruct (existsb (String.eqb k) (keys d)) eqn:E; [assumption|].
  apply NoDup_app. split; [assumption|]. split; [|apply NoDup_singleton].
  intros x Hx Hx'. apply list_elem_of_singleton in Hx'. subst x.
  assert (existsb (String.eqb k) (keys d) = true); [|congruence].
  apply existsb_exists. exists k. split; [now apply list_elem_of_In | apply String.eqb_refl].
Qed.

Lemma dict_update_wf (d other : pydict) : dict_wf d -> dict_wf (dict_update d other).
Proof.
  unfold dict_update. revert d.
  induction other as [|[k v] other IH]; simpl; intros d Hd; [assumption|].
  apply IH. now apply dict_set_wf.
Qed.

Lemma dict_update_fresh (d other : pydict) :
  NoDup (keys d ++ keys other) -> dict_update d other = d ++ other.
Proof.
  unfold dict_update. revert d.
  induction other as [|[k v] other IH]; simpl; intros d Hd.
  - now rewrite app_nil_r.
  - rewrite dict_set_fresh.
    + rewrite IH.
      * now rewrite <- app_assoc.
      * rewrite keys_app. simpl. now rewrite <- app_assoc.
    + apply NoDup_app in Hd as (_ & Hd & _). intros Hin.
      apply (Hd k); [now apply list_elem_of_In | left].
Qed.

(** ** Facts about flattening *)

(** Induction over values through the nested mappings. *)
Lemma pyobj_nested_ind (P : pyobj -> Prop) :
  (forall v, isinstance_dict v = false -> P v) ->
  (forall entries, Forall (fun kv => P (snd kv)) entries -> P (PyDict entries)) ->
  forall o, P o.
Proof.
  intros Hleaf Hdict. fix IH 1.
  intros [ | b | n | x | re im | x | s | b | b | p | fig | sub | arr | img | src | src
         | entries];
    try (apply Hleaf; reflexivity).
  apply Hdict.
  induction entries as [|[k v] entries IHentries]; constructor;
    [apply IH | exact IHentries].
Qed.

Lemma flatten_dict_unfold (d : pydict) (parent_key separator : string) :
  _flatten_dict d parent_key separator
  = fold_left (flatten_step parent_key separator) d [].
Proof. reflexivity. Qed.

Lemma visited_unfold (entries : pydict) (p separator : string) :
  visited (PyDict entries) p separator = flat_map (visited_step p separator) entries.
Proof. reflexivity. Qed.

Lemma flatten_step_wf (p separator : string) (items : pydict) (kv : string * pyobj) :
  dict_wf items -> dict_wf (flatten_step p separator items kv).
Proof.
  intros H. unfold flatten_step.
  destruct (snd kv); try (now apply dict_set_wf). now apply dict_update_wf.
Qed.

Lemma fold_flatten_step_wf (p separator : string) (entries items : pydict) :
  dict_wf items -> dict_wf (fold_left (flatten_step p separator) entries items).
Proof.
  revert items. induction entries as [|kv entries IH]; simpl; intros items H;
    [assumption|]. apply IH. now apply flatten_step_wf.
Qed.

(** The flattened mapping binds each key once, whatever the input. *)
Lemma flatten_dict_wf (d : pydict) (p separator : string) :
  dict_wf (_flatten_dict d p separator).
Proof. rewrite flatten_dict_unfold. apply fold_flatten_step_wf. constructor. Qed.

Lemma fold_flatten_step_visited (p separator : string) (entries : pydict) :
  Forall (fun kv => forall p',
            NoDup (keys (visited (snd kv) p' separator)) ->
            flatten_obj (snd kv) p' separator = visited (snd kv) p' separator) entries ->
  forall items,
    NoDup (keys items ++ keys (flat_map (visited_step p separator) entries)) ->
    fold_left (flatten_step p separator) entries items
    = items ++ flat_map (visited_step p separator) entries.
Proof.
  induction 1 as [|[k v] entries Hv _ IH]; simpl; intros items Hnd.
  - now rewrite app_nil_r.
  - rewrite keys_app in Hnd. rewrite app_assoc in Hnd. rewrite <- keys_app in Hnd.
    assert (Hstep : flatten_step p separator items (k, v)
                    = items ++ visited_step p separator (k, v)).
    { apply NoDup_app in Hnd as (Hnd & _ & _). rewrite keys_app in Hnd.
      unfold flatten_step, visited_step. simpl in *.
      destruct v; try (apply dict_set_fresh; apply NoDup_app in Hnd as (_ & Hnd & _);
        intros Hin; apply (Hnd _ (proj2 (list_elem_of_In _ _) Hin)); left).
      rewrite Hv.
      - now apply dict_update_fresh.
      - now apply NoDup_app in Hnd as (_ & _ & Hnd). }
    rewrite Hstep, IH by assumption. now rewrite <- app_assoc.
Qed.

Lemma flatten_obj_visited (separator : string) (o : pyobj) :
  forall p, NoDup (keys (visited o p separator)) ->
            flatten_obj o p separator = visited o p separator.
Proof.
  induction o as [v Hv | entries IH] using pyobj_nested_ind; intros p Hnd.
  - destruct v; try reflexivity; discriminate.
  - change (flatten_obj (PyDict entries) p separator)
      with (fold_left (flatten_step p separator) entries []).
    rewrite visited_unfold in *.
    now rewrite (fold_flatten_step_visited p separator entries IH []).
Qed.

Lemma concat_cons (separator k : string) (path : list string) :
  path <> [] ->
  String.concat separator (k :: path) = k +:+ separator +:+ String.concat separator path.
Proof. destruct path; [congruence | reflexivity]. Qed.

Lemma leaf_paths_nonempty (o : pyobj) (pl : list string * pyobj) :
  In pl (leaf_paths o) -> fst pl <> [].
Proof.
  destruct o; simpl; try contradiction.
  intros Hin. apply in_flat_map in Hin as ([k v] & _ & Hin). simpl in Hin.
  destruct v; simpl in Hin;
    try (destruct Hin as [<-|[]]; discriminate).
  apply in_map_iff in Hin as (pl' & <- & _). discriminate.
Qed.

Lemma visited_nested (separator : string) (o : pyobj) :
  forall p, p <> "" ->
    visited o p separator
    = map (fun pl => (p +:+ separator +:+ String.concat separator (fst pl), snd pl))
          (leaf_paths o).
Proof.
  induction o as [v Hv | entries IH] using pyobj_nested_ind; intros p Hp.
  - destruct v; try reflexivity; discriminate.
  - rewrite visited_unfold. simpl leaf_paths.
    induction IH as [|[k v] entries Hv _ IHentries]; [reflexivity|].
    simpl flat_map. rewrite List.map_app, <- IHentries. f_equal.
    unfold visited_step. simpl fst. simpl snd.
    assert (Hleaf : [(new_key p separator k, v)]
              = map (fun pl => (p +:+ separator +:+ String.concat separator (fst pl), snd pl))
                    [([k], v)]).
    { simpl. now rewrite new_key_nested. }
    destruct v; try exact Hleaf.
    rewrite Hv by now apply new_key_nonempty.
    rewrite List.map_map. apply List.map_ext_in. intros pl Hpl. cbn [fst snd].
    rewrite concat_cons by now apply leaf_paths_nonempty in Hpl.
    rewrite new_key_nested by assumption. now rewrite !append_assoc.
Qed.

Lemma visited_top (separator : string) (d : pydict) :
  (forall k v, In (k, v) d -> isinstance_dict v = true -> k <> "") ->
  visited (PyDict d) "" separator = flatten_spec d separator.
Proof.
  unfold flatten_spec. rewrite visited_unfold. simpl leaf_paths.
  induction d as [|[k v] d IH]; intros Htop; [reflexivity|].
  simpl flat_map. rewrite List.map_app, <- IH by (intros; eapply Htop; [right|]; eassumption).
  f_equal. unfold visited_step. simpl fst. simpl snd. rewrite new_key_top.
  destruct v; try reflexivity.
  rewrite visited_nested by (apply (Htop k (PyDict items)); [now left | reflexivity]).
  rewrite List.map_map. apply List.map_ext_in. intros pl Hpl. unfold renamed.
  cbn [fst snd]. now rewrite concat_cons by now apply leaf_paths_nonempty in Hpl.
Qed.

Lemma visited_flat (separator : string) (d : pydict) :
  flat d -> visited (PyDict d) "" separator = d.
Proof.
  rewrite visited_unfold.
  induction 1 as [|[k v] d Hv _ IH]; [reflexivity|].
  simpl flat_map. rewrite IH. unfold visited_step. simpl in *.
  destruct v; try reflexivity; discriminate.
Qed.

(** ** Running the monad *)

Lemma world_eta (w : world) : World (heap w) (trace w) (environ w) = w.
Proof. now destruct w. Qed.

Lemma bind_ok {A B} (m : M A) (k : A -> M B) (w w' : world) (a : A) :
  m w = (inr a, w') -> bind m k w = k a w'.
Proof. intros H. unfold bind. now rewrite H. Qed.

Lemma load_dict_ok (l : loc) (attr : string) (w : world) (d : pydict) :
  heap w !! l = Some (ODict d) -> load_dict l attr w = (inr d, w).
Proof. intros H. unfold load_dict. now rewrite H. Qed.

Lemma store_dict_ok (l : loc) (attr : string) (w : world) (d0 d : pydict) :
  heap w !! l = Some (ODict d0) ->
  store_dict l attr d w
  = (inr tt, World (<[l := ODict d]> (heap w)) (trace w) (environ w)).
Proof. intros H. unfold store_dict. now rewrite H. Qed.

Lemma load_experiment_ok (self : loc) (w : world) (me : UnifiedExperiment.attrs) :
  heap w !! self = Some (OExperiment me) -> load_experiment self w = (inr me, w).
Proof. intros H. unfold load_experiment. now rewrite H. Qed.

Lemma load_logger_ok (self : loc) (w : world) (me : UnifiedLogger.attrs) :
  heap w !! self = Some (OLogger me) -> load_logger self w = (inr me, w).
Proof. intros H. unfold load_logger. now rewrite H. Qed.

Lemma insert_last (h : list obj) (o o' : obj) :
  <[length h := o']> (h ++ [o]) = h ++ [o'].
Proof.
  replace (length h) with (length h + 0) by lia. now rewrite insert_app_r.
Qed.

Lemma lookup_last (h : list obj) (o : obj) : (h ++ [o]) !! length h = Some o.
Proof. now apply list_lookup_middle. Qed.

Lemma dict_pop_run (data : loc) (key : string) (dflt : pyobj) (w : world) (d : pydict) :
  heap w !! data = Some (ODict d) ->
  dict_pop data key dflt w
  = (inr (default dflt (dict_get d key)),
     World (<[data := ODict (dict_remove d key)]> (heap w)) (trace w) (environ w)).
Proof.
  intros H. unfold dict_pop.
  rewrite (bind_ok _ _ _ _ _ (load_dict_ok _ _ _ _ H)).
  destruct (dict_get d key) as [v|] eqn:E; simpl.
  - now rewrite (bind_ok _ _ _ _ _ (store_dict_ok _ _ _ _ _ H)).
  - unfold ret. rewrite dict_remove_absent by assumption.
    rewrite list_insert_id by assumption. now rewrite world_eta.
Qed.

(** ** The two loops of [UnifiedExperiment.log] *)

Lemma tensorboard_item_run (exp : handle) (step : pyobj) (kv : string * pyobj) (w : world) :
  tensorboard_item exp step kv w
  = (inr tt, World (heap w) (trace w ++ leaf_dispatch exp step kv) (environ w)).
Proof.
  destruct kv as [k v].
  destruct v as [ | b | n | x | re im | x | s | b | b | [f|sub|] | f | sub | a | i | src | src
                  | entries];
    try reflexivity;
    unfold tensorboard_item, leaf_dispatch, ret; simpl;
    now rewrite app_nil_r, world_eta.
Qed.

Lemma for_each_tensorboard (exp : handle) (step : pyobj) (items : pydict) (w : world) :
  for_each items (tensorboard_item exp step) w
  = (inr tt,
     World (heap w) (trace w ++ flat_map (leaf_dispatch exp step) items) (environ w)).
Proof.
  revert w. induction items as [|kv items IH]; intros w; simpl.
  - unfold ret. now rewrite app_nil_r, world_eta.
  - rewrite (bind_ok _ _ _ _ _ (tensorboard_item_run exp step kv w)).
    rewrite IH. simpl. now rewrite <- app_assoc.
Qed.

Lemma wandb_item_run (data : loc) (kv : string * pyobj) (w : world) (cur : pydict) :
  heap w !! data = Some (ODict cur) ->
  wandb_item data kv w
  = (inr tt, World (<[data := ODict (wandb_step cur kv)]> (heap w)) (trace w) (environ w)).
Proof.
  intros H. destruct kv as [k v].
  assert (Hskip : ret tt w
            = (inr tt, World (<[data := ODict cur]> (heap w)) (trace w) (environ w))).
  { unfold ret. rewrite list_insert_id by assumption. now rewrite world_eta. }
  assert (Hset : forall v', dict_setitem data k v' w
            = (inr tt, World (<[data := ODict (dict_set cur k v')]> (heap w))
                         (trace w) (environ w))).
  { intros v'. unfold dict_setitem.
    rewrite (bind_ok _ _ _ _ _ (load_dict_ok _ _ _ _ H)).
    now rewrite (store_dict_ok _ _ _ _ _ H). }
  destruct v as [ | b | n | x | re im | x | s | b | b | [f|sub|] | f | sub | a | i | src | src
                  | entries];
    try exact Hskip; apply Hset.
Qed.

Lemma for_each_wandb (data : loc) (items : pydict) (w : world) (cur : pydict) :
  heap w !! data = Some (ODict cur) ->
  for_each items (wandb_item data) w
  = (inr tt,
     World (<[data := ODict (fold_left wandb_step items cur)]> (heap w))
       (trace w) (environ w)).
Proof.
  revert w cur. induction items as [|kv items IH]; intros w cur H; simpl.
  - unfold ret. rewrite list_insert_id by assumption. now rewrite world_eta.
  - rewrite (bind_ok _ _ _ _ _ (wandb_item_run data kv w cur H)).
    erewrite IH.
    + simpl. now rewrite list_insert_insert_eq.
    + simpl. apply list_lookup_insert_eq. now apply lookup_lt_Some in H.
Qed.

Lemma dict_set_middle (pre post : pydict) (k : string) (v v' : pyobj) :
  ~ In k (keys pre) ->
  dict_set (pre ++ (k, v) :: post) k v' = pre ++ (k, v') :: post.
Proof.
  induction pre as [|[k0 v0] pre IH]; simpl; intros Hk.
  - now rewrite String.eqb_refl.
  - destruct (String.eqb_spec k0 k) as [->|Hne]; [exfalso; apply Hk; now left|].
    f_equal. apply IH. intros Hin. apply Hk. now right.
Qed.

Lemma keys_wandb_entry (d : pydict) : keys (map wandb_entry d) = keys d.
Proof. unfold keys. rewrite List.map_map. now apply List.map_ext. Qed.

Lemma fold_wandb_step (items pre : pydict) :
  dict_wf (pre ++ items) ->
  fold_left wandb_step items (map wandb_entry pre ++ items)
  = map wandb_entry (pre ++ items).
Proof.
  revert pre. induction items as [|[k v] items IH]; intros pre Hwf; simpl.
  - now rewrite !app_nil_r.
  - assert (Hk : ~ In k (keys (map wandb_entry pre))).
    { rewrite keys_wandb_entry. unfold dict_wf in Hwf. rewrite keys_app in Hwf.
      apply NoDup_app in Hwf as (_ & Hwf & _). intros Hin.
      apply (Hwf k); [now apply list_elem_of_In | left]. }
    assert (Hstep : wandb_step (map wandb_entry pre ++ (k, v) :: items) (k, v)
              = map wandb_entry (pre ++ [(k, v)]) ++ items).
    { rewrite List.map_app, <- app_assoc. simpl.
      unfold wandb_step, wandb_entry. simpl.
      destruct v as [ | b | n | x | re im | x | s | b | b | [f|sub|] | f | sub | a | i | src | src
                  | entries];
        try reflexivity; now apply dict_set_middle. }
    rewrite Hstep, IH.
    + now rewrite <- app_assoc.
    + now rewrite <- app_assoc.
Qed.

(** ** [UnifiedExperiment.log], run *)

Lemma log_run (self data : loc) (w : world) (me : UnifiedExperiment.attrs) (d : pydict) :
  heap w !! self = Some (OExperiment me) ->
  heap w !! data = Some (ODict d) ->
  UnifiedExperiment_log self data w
  = (inr tt,
     World (<[data := ODict (dict_remove d "epoch")]> (heap w)
              ++ [ODict (payload_of (UnifiedExperiment._backend me) d)])
       (trace w ++ log_calls me d) (environ w)).
Proof.
  intros Hself Hdata. unfold UnifiedExperiment_log.
  assert (Hne : data <> self) by (intros ->; congruence).
  assert (Hlt : data < length (heap w)) by now apply lookup_lt_Some in Hdata.
  assert (Hlt' : self < length (heap w)) by now apply lookup_lt_Some in Hself.
  rewrite (bind_ok _ _ _ _ _ (dict_pop_run data "epoch" PyNone w d Hdata)).
  set (h1 := <[data := ODict (dict_remove d "epoch")]> (heap w)).
  assert (Hlen : length h1 = length (heap w)) by apply length_insert.
  erewrite bind_ok; [|apply load_dict_ok; simpl; now apply list_lookup_insert_eq].
  unfold alloc at 1. unfold bind at 1. cbn [heap trace environ].
  fold h1. fold (flattened d).
  erewrite bind_ok;
    [|apply load_experiment_ok; cbn [heap]; rewrite lookup_app_l by lia;
      unfold h1; rewrite list_lookup_insert_ne by assumption; exact Hself].
  unfold payload_of, log_calls.
  destruct (String.eqb (UnifiedExperiment._backend me) "wandb").
  - unfold dict_items.
    erewrite bind_ok; [|apply load_dict_ok; cbn [heap]; apply lookup_last].
    erewrite bind_ok; [|apply for_each_wandb; cbn [heap]; apply lookup_last].
    cbn [heap trace environ]. rewrite insert_last.
    erewrite bind_ok; [|apply load_dict_ok; cbn [heap]; apply lookup_last].
    unfold emit. cbn [heap trace environ].
    pose proof (fold_wandb_step (flattened d) [] (flatten_dict_wf _ _ _)) as Hfold.
    simpl in Hfold. now rewrite Hfold.
  - destruct (String.eqb (UnifiedExperiment._backend me) "tensorboard").
    + unfold dict_items.
      erewrite bind_ok; [|apply load_dict_ok; cbn [heap]; apply lookup_last].
      now rewrite for_each_tensorboard.
    + unfold ret. now rewrite app_nil_r.
Qed.

(** ** Objects other than dictionaries are never written *)

Lemma stable_refl (w : world) : stable w w.
Proof. intros l o H _. exact H. Qed.

Lemma stable_trans (w1 w2 w3 : world) : stable w1 w2 -> stable w2 w3 -> stable w1 w3.
Proof. intros H12 H23 l o H Ho. apply H23; [apply H12|]; assumption. Qed.

Create HintDb keeps.

Lemma keeps_ret {A} (a : A) : keeps (ret a).
Proof. intros w. apply stable_refl. Qed.

Lemma keeps_raise {A} (e : exn) : keeps (@raise A e).
Proof. intros w. apply stable_refl. Qed.

Lemma keeps_bind {A B} (m : M A) (k : A -> M B) :
  keeps m -> (forall a, keeps (k a)) -> keeps (bind m k).
Proof.
  intros Hm Hk w. unfold bind. specialize (Hm w).
  destruct (m w) as [[e|a] w']; simpl in *; [assumption|].
  eapply stable_trans; [exact Hm | apply Hk].
Qed.

Lemma keeps_for_each {A} (xs : list A) (body : A -> M unit) :
  (forall x, keeps (body x)) -> keeps (for_each xs body).
Proof.
  intros Hbody. induction xs as [|x xs IH]; simpl.
  - apply keeps_ret.
  - apply keeps_bind; [apply Hbody | intros _; exact IH].
Qed.

Lemma keeps_emit (c : call) : keeps (emit c).
Proof. intros w l o H _. exact H. Qed.

Lemma keeps_alloc (o : obj) : keeps (alloc o).
Proof. intros w l o' H _. simpl. now apply lookup_app_l_Some. Qed.

Lemma keeps_getenv (name : string) : keeps (getenv name).
Proof. intros w. apply stable_refl. Qed.

Lemma keeps_load_dict (l : loc) (attr : string) : keeps (load_dict l attr).
Proof.
  intros w. unfold load_dict.
  destruct (heap w !! l) as [[d|a|a]|]; apply stable_refl.
Qed.

Lemma keeps_load_experiment (self : loc) : keeps (load_experiment self).
Proof.
  intros w. unfold load_experiment.
  destruct (heap w !! self) as [[d|a|a]|]; apply stable_refl.
Qed.

Lemma keeps_load_logger (self : loc) : keeps (load_logger self).
Proof.
  intros w. unfold load_logger.
  destruct (heap w !! self) as [[d|a|a]|]; apply stable_refl.
Qed.

Lemma keeps_store_dict (l : loc) (attr : string) (d : pydict) : keeps (store_dict l attr d).
Proof.
  intros w. unfold store_dict.
  destruct (heap w !! l) as [[d0|a|a]|] eqn:E; try apply stable_refl.
  intros l' o H Ho. simpl. rewrite list_lookup_insert_ne; [exact H|].
  intros Heq. subst l'. rewrite E in H. injection H as <-. discriminate.
Qed.

#[local] Hint Resolve keeps_ret keeps_raise keeps_emit keeps_alloc keeps_getenv
  keeps_load_dict keeps_load_experiment keeps_load_logger keeps_store_dict : keeps.

Ltac keeps_step :=
  match goal with
  | |- keeps (bind _ _) => apply keeps_bind; [|intros]
  | |- keeps (for_each _ _) => apply keeps_for_each; intros
  | |- keeps (if ?b then _ else _) => destruct b
  | |- keeps (match ?x with _ => _ end) => destruct x
  | |- keeps _ => solve [auto with keeps]
  end.

Lemma keeps_dict_pop (data : loc) (key : string) (dflt : pyobj) :
  keeps (dict_pop data key dflt).
Proof. unfold dict_pop. repeat keeps_step. Qed.

Lemma keeps_dict_setitem (data : loc) (key : string) (value : pyobj) :
  keeps (dict_setitem data key value).
Proof. unfold dict_setitem. repeat keeps_step. Qed.

#[local] Hint Resolve keeps_dict_pop keeps_dict_setitem : keeps.

Lemma keeps_wandb_item (data : loc) (kv : string * pyobj) : keeps (wandb_item data kv).
Proof. unfold wandb_item. cbv zeta. repeat keeps_step. Qed.

Lemma keeps_tensorboard_item (exp : handle) (step : pyobj) (kv : string * pyobj) :
  keeps (tensorboard_item exp step kv).
Proof. unfold tensorboard_item. cbv zeta. repeat keeps_step. Qed.

#[local] Hint Resolve keeps_wandb_item keeps_tensorboard_item : keeps.

Lemma keeps_experiment_log (self data : loc) : keeps (UnifiedExperiment_log self data).
Proof. unfold UnifiedExperiment_log, dict_items. repeat keeps_step. Qed.

#[local] Hint Resolve keeps_experiment_log : keeps.

Lemma keeps_run_operation (self : loc) (op : operation) : keeps (run_operation self op).
Proof.
  destruct op; simpl;
    unfold UnifiedLogger_log, log_hyperparams, log_metrics, save, close;
    repeat keeps_step.
Qed.

Lemma keeps_run_action (self : loc) (a : action) : keeps (run_action self a).
Proof.
  destruct a as [d|op]; simpl; [repeat keeps_step | apply keeps_run_operation].
Qed.

Lemma stable_run_session (self : loc) (acts : list action) (w : world) :
  stable w (run_session self acts w).
Proof.
  revert w. induction acts as [|a acts IH]; intros w; simpl.
  - apply stable_refl.
  - eapply stable_trans; [apply keeps_run_action | apply IH].
Qed.

(** ** The constructor, run *)

Lemma init_unsupported (backend : string) (kwargs : pydict) (w : world) :
  backend <> "wandb" -> backend <> "tensorboard" ->
  UnifiedLogger_init backend kwargs w
  = (inl (ValueError ("Unsupported backend: " +:+ backend)), w).
Proof.
  intros Hw Ht. unfold UnifiedLogger_init.
  apply String.eqb_neq in Hw, Ht. rewrite Hw, Ht. reflexivity.
Qed.

Lemma init_inv (backend : string) (kwargs : pydict) (w w1 : world) (self : loc) :
  UnifiedLogger_init backend kwargs w = (inr self, w1) ->
  exists lg,
    (backend = "wandb" /\ lg = WandbLogger kwargs
     \/ backend = "tensorboard" /\ lg = TensorBoardLogger kwargs)
    /\ heap w1 !! self = Some (OLogger (built backend lg (length (heap w))))
    /\ heap w1 !! length (heap w)
       = Some (OExperiment (UnifiedExperiment.Build backend (ExperimentOf lg))).
Proof.
  unfold UnifiedLogger_init.
  destruct (String.eqb_spec backend "wandb") as [->|Hw];
    [|destruct (String.eqb_spec backend "tensorboard") as [->|Ht]].
  - intros [= <- <-]. exists (WandbLogger kwargs). split; [now left|].
    simpl. split.
    + rewrite length_app. simpl.
      replace (length (heap w) + 1) with (length (heap w ++ [OExperiment
        (UnifiedExperiment.Build "wandb" (ExperimentOf (WandbLogger kwargs)))]))
        by (rewrite length_app; reflexivity).
      apply lookup_last.
    + apply lookup_app_l_Some, lookup_last.
  - intros [= <- <-]. exists (TensorBoardLogger kwargs). split; [now right|].
    simpl. split.
    + rewrite length_app. simpl.
      replace (length (heap w) + 1) with (length (heap w ++ [OExperiment
        (UnifiedExperiment.Build "tensorboard" (ExperimentOf (TensorBoardLogger kwargs)))]))
        by (rewrite length_app; reflexivity).
      apply lookup_last.
    + apply lookup_app_l_Some, lookup_last.
  - discriminate.
Qed.

(** A logger built by the constructor is found unchanged after any session. *)
Lemma session_keeps_logger (backend : string) (kwargs : pydict) (w w1 : world)
  (self : loc) (acts : list action) :
  UnifiedLogger_init backend kwargs w = (inr self, w1) ->
  exists lg,
    (backend = "wandb" /\ lg = WandbLogger kwargs
     \/ backend = "tensorboard" /\ lg = TensorBoardLogger kwargs)
    /\ heap (run_session self acts w1) !! self
       = Some (OLogger (built backend lg (length (heap w))))
    /\ heap (run_session self acts w1) !! length (heap w)
       = Some (OExperiment (UnifiedExperiment.Build backend (ExperimentOf lg))).
Proof.
  intros Hinit. apply init_inv in Hinit as (lg & Hlg & Hself & Hexp).
  exists lg. split; [exact Hlg|].
  split; (eapply stable_run_session; [eassumption | reflexivity]).
Qed.

Lemma calls_of_app {A} (m : M A) (w : world) (r : exn + A) (h : list obj)
  (cs : list call) (env : list (string * string)) :
  m w = (r, World h (trace w ++ cs) env) -> calls_of m w = cs.
Proof. intros H. unfold calls_of. rewrite H. simpl. apply drop_app_length. Qed.

Lemma calls_of_log (self data : loc) (w : world) (me : UnifiedExperiment.attrs)
  (d : pydict) :
  heap w !! self = Some (OExperiment me) ->
  heap w !! data = Some (ODict d) ->
  calls_of (UnifiedExperiment_log self data) w = log_calls me d.
Proof. intros Hs Hd. eapply calls_of_app. now apply log_run. Qed.

(** ** The calls of one leaf among the calls of an entry *)

Lemma filter_dispatch_same (exp : handle) (step : pyobj) (k : string) (v : pyobj) :
  List.filter (has_tag k) (leaf_dispatch exp step (k, v)) = leaf_dispatch exp step (k, v).
Proof.
  destruct v as [ | b | n | x | re im | x | s | b | b | [f|sub|] | f | sub | a | i | src | src
                  | entries];
    try reflexivity; unfold leaf_dispatch, has_tag; simpl;
    now rewrite String.eqb_refl.
Qed.

Lemma filter_dispatch_other (exp : handle) (step : pyobj) (k key : string) (v : pyobj) :
  k <> key -> List.filter (has_tag key) (leaf_dispatch exp step (k, v)) = [].
Proof.
  intros Hne. apply String.eqb_neq in Hne.
  destruct v as [ | b | n | x | re im | x | s | b | b | [f|sub|] | f | sub | a | i | src | src
                  | entries];
    try reflexivity; unfold leaf_dispatch, has_tag; simpl;
    now rewrite Hne.
Qed.

Lemma filter_dispatch_absent (exp : handle) (step : pyobj) (key : string) (d : pydict) :
  ~ In key (keys d) ->
  List.filter (has_tag key) (flat_map (leaf_dispatch exp step) d) = [].
Proof.
  induction d as [|[k v] d IH]; simpl; intros Hk; [reflexivity|].
  rewrite List.filter_app, IH by (intros Hin; apply Hk; now right).
  rewrite filter_dispatch_other; [reflexivity|].
  intros ->. apply Hk. now left.
Qed.

Lemma filter_dispatch (exp : handle) (step : pyobj) (d : pydict) (key : string)
  (value : pyobj) :
  dict_wf d -> dict_get d key = Some value ->
  List.filter (has_tag key) (flat_map (leaf_dispatch exp step) d)
  = leaf_dispatch exp step (key, value).
Proof.
  unfold dict_wf.
  induction d as [|[k v] d IH]; simpl; intros Hwf Hget; [discriminate|].
  apply NoDup_cons in Hwf as [Hk Hwf]. rewrite List.filter_app.
  destruct (String.eqb_spec k key) as [->|Hne].
  - injection Hget as ->. rewrite filter_dispatch_same, filter_dispatch_absent.
    + apply app_nil_r.
    + intros Hin. apply Hk. now apply list_elem_of_In.
  - rewrite filter_dispatch_other by assumption. now apply IH.
Qed.

Lemma dispatch_scalar (exp : handle) (step : pyobj) (key : string) (value : pyobj) :
  np_isscalar value = true -> isinstance_str value = false ->
  leaf_dispatch exp step (key, value) = [add_scalar exp key value step].
Proof. destruct value; simpl; intros; try discriminate; reflexivity. Qed.

Lemma dispatch_ignored (exp : handle) (step : pyobj) (key : string) (value : pyobj) :
  ignored value = true -> leaf_dispatch exp step (key, value) = [].
Proof. destruct value; simpl; intros; try discriminate; reflexivity. Qed.

Lemma dispatch_recognized (exp : handle) (step : pyobj) (key : string) (value : pyobj) :
  recognized value = true -> exists c, leaf_dispatch exp step (key, value) = [c].
Proof.
  destruct value as [ | b | n | x | re im | x | s | b | b | [f|sub|] | f | sub | a | i
                    | src | src | entries];
    simpl; intros; try discriminate; eexists; reflexivity.
Qed.

Lemma dispatch_step (exp : handle) (step : pyobj) (d : pydict) :
  Forall (fun c => call_step c = Some step) (flat_map (leaf_dispatch exp step) d).
Proof.
  induction d as [|[k v] d IH]; simpl; [constructor|].
  apply Forall_app. split; [|exact IH].
  destruct v as [ | b | n | x | re im | x | s | b | b | [f|sub|] | f | sub | a | i | src | src
                  | entries];
    simpl; repeat constructor.
Qed.


(** ** The step of an entry *)

(** On the flat-stream backend every call of one [log] carries the value that
    was popped from the entry under ["epoch"], [None] when there was none. *)
Lemma tensorboard_log_step (w : world) (self data : loc) (exp : handle) (d : pydict) :
  heap w !! self = Some (tensorboard_adapter exp) ->
  heap w !! data = Some (ODict d) ->
  Forall (fun c => call_step c = Some (step_of d))
    (calls_of (UnifiedExperiment_log self data) w).
Proof.
  intros Hs Hd. rewrite (calls_of_log _ _ _ _ _ Hs Hd). apply dispatch_step.
Qed.

(** On the structured backend one [log] is one call of [Run.log], on the
    flattened entry without its top-level ["epoch"]; that call has no step. *)
Lemma wandb_log_calls (w : world) (self data : loc) (exp : handle) (d : pydict) :
  heap w !! self = Some (wandb_adapter exp) ->
  heap w !! data = Some (ODict d) ->
  calls_of (UnifiedExperiment_log self data) w
  = [experiment_log exp (map wandb_entry (flattened d))]
  /\ Forall (fun c => call_step c = None)
       (calls_of (UnifiedExperiment_log self data) w).
Proof.
  intros Hs Hd. rewrite (calls_of_log _ _ _ _ _ Hs Hd). split; [reflexivity|].
  repeat constructor.
Qed.

(** C1, at the input where the code departs from it: the entry
    [{"epoch": 5, "loss": 0.42}] logged on the structured backend.  The key
    ["epoch"] is removed from the payload, but the one call issued,
    [Run.log({"loss": 0.42})], carries no step: the value 5 is dropped.  On the
    flat-stream backend the same entry gives one call with step 5. *)
Theorem wandb_log_drops_step :
  calls_of (UnifiedExperiment_log 0 1)
    (wandb_world [("epoch", PyInt 5); ("loss", PyFloat 0.42)])
  = [experiment_log run [("loss", PyFloat 0.42)]]
  /\ map call_step
       (calls_of (UnifiedExperiment_log 0 1)
          (wandb_world [("epoch", PyInt 5); ("loss", PyFloat 0.42)]))
     = [None]
  /\ map call_step
       (calls_of (UnifiedExperiment_log 0 1)
          (tensorboard_world [("epoch", PyInt 5); ("loss", PyFloat 0.42)]))
     = [Some (PyInt 5)].
Proof. repeat split. Qed.

(** ** Flattening *)

(** C2, as amended: for every nested mapping in which no top-level key that
    holds a nested mapping is empty and in which the keys joined with ["/"]
    along the paths to the leaves are pairwise distinct, flattening returns
    one binding per leaf, under the keys of its path joined with ["/"], with
    the value of the leaf, in traversal order; and
    [{"a": {"b": 1, "c": {"d": 2}}}] flattens to [{"a/b": 1, "a/c/d": 2}]. *)
Theorem flatten_dict_spec :
  (forall d : pydict,
      (forall k v, In (k, v) d -> isinstance_dict v = true -> k <> "") ->
      NoDup (keys (flatten_spec d "/")) ->
      _flatten_dict d "" "/" = flatten_spec d "/")
  /\ _flatten_dict [("a", PyDict [("b", PyInt 1); ("c", PyDict [("d", PyInt 2)])])] "" "/"
     = [("a/b", PyInt 1); ("a/c/d", PyInt 2)].
Proof.
  split; [|reflexivity].
  intros d Htop Hnd. rewrite <- (visited_top "/" d Htop) in *.
  now apply flatten_obj_visited.
Qed.

Lemma flatten_dict_spec_witness :
  _flatten_dict [("a", PyDict [("b", PyInt 1)]); ("x", PyFloat 0.42)] "" "/"
  = flatten_spec [("a", PyDict [("b", PyInt 1)]); ("x", PyFloat 0.42)] "/".
Proof.
  apply (proj1 flatten_dict_spec).
  - intros k v [[= <- <-]|[[= <- <-]|[]]]; discriminate.
  - vm_compute. repeat constructor; rewrite ?list_elem_of_In; simpl; intuition discriminate.
Defined.

(** C2 as it stands fails on the code.  A key that already holds the
    separator collides with a nested path, and the leaf visited first loses
    its value: [{"a": {"b": 1}, "a/b": 2}] flattens to [{"a/b": 2}].  Under
    an empty top-level key the nested keys are not renamed:
    [{"": {"b": 1}}] flattens to [{"b": 1}], not to [{"/b": 1}]. *)
Lemma flatten_dict_collision :
  _flatten_dict [("a", PyDict [("b", PyInt 1)]); ("a/b", PyInt 2)] "" "/"
  = [("a/b", PyInt 2)]
  /\ _flatten_dict [("a", PyDict [("b", PyInt 1)]); ("a/b", PyInt 2)] "" "/"
     <> flatten_spec [("a", PyDict [("b", PyInt 1)]); ("a/b", PyInt 2)] "/"
  /\ _flatten_dict [("", PyDict [("b", PyInt 1)])] "" "/" = [("b", PyInt 1)]
  /\ flatten_spec [("", PyDict [("b", PyInt 1)])] "/" = [("/b", PyInt 1)].
Proof. repeat split. discriminate. Qed.

(** C8: on a mapping without nested mappings (a dictionary: each key bound
    once) flattening is the identity. *)
Theorem flatten_dict_flat (d : pydict) (separator : string) :
  dict_wf d -> flat d -> _flatten_dict d "" separator = d.
Proof.
  intros Hwf Hflat. unfold _flatten_dict.
  rewrite flatten_obj_visited; rewrite visited_flat; trivial.
Qed.

Lemma flatten_dict_flat_witness :
  _flatten_dict [("loss", PyFloat 0.42); ("note", PyStr "hello")] "" "/"
  = [("loss", PyFloat 0.42); ("note", PyStr "hello")].
Proof.
  apply flatten_dict_flat.
  - unfold dict_wf. simpl.
    repeat constructor; rewrite ?list_elem_of_In; simpl; intuition discriminate.
  - repeat constructor.
Defined.

(** ** Construction *)

(** C3: with a backend selector other than ["wandb"] and ["tensorboard"] the
    constructor raises [ValueError] and leaves the world as it found it: no
    login, no backend logger built, no object allocated. *)
Theorem init_unsupported_backend (backend : string) (kwargs : pydict) (w : world) :
  backend <> "wandb" -> backend <> "tensorboard" ->
  UnifiedLogger_init backend kwargs w
  = (inl (ValueError ("Unsupported backend: " +:+ backend)), w).
Proof. apply init_unsupported. Qed.

Lemma init_unsupported_backend_witness :
  UnifiedLogger_init "mlflow" [("save_dir", PyStr "logs")] empty_world
  = (inl (ValueError "Unsupported backend: mlflow"), empty_world).
Proof. apply (init_unsupported_backend "mlflow"); discriminate. Defined.

(** ** Logging on the flat-stream backend *)

Section TensorboardLog.

Variables (w : world) (self data : loc) (exp : handle) (d : pydict).
Hypothesis Hself : heap w !! self = Some (tensorboard_adapter exp).
Hypothesis Hdata : heap w !! data = Some (ODict d).

(** C4: logging [{"loss": 0.42}] makes exactly one call, [add_scalar] with
    tag ["loss"] and value 0.42; and for every entry, each leaf of the
    flattened entry that is a scalar and not a string is sent by exactly one
    call under its tag, [add_scalar] with the leaf's value and the step. *)
Theorem tensorboard_scalar_dispatch :
  (d = [("loss", PyFloat 0.42)] ->
   calls_of (UnifiedExperiment_log self data) w
   = [add_scalar exp "loss" (PyFloat 0.42) PyNone])
  /\ (forall key value,
        dict_get (flattened d) key = Some value ->
        np_isscalar value = true -> isinstance_str value = false ->
        List.filter (has_tag key) (calls_of (UnifiedExperiment_log self data) w)
        = [add_scalar exp key value (step_of d)]).
Proof.
  rewrite (calls_of_log _ _ _ _ _ Hself Hdata). split.
  - intros ->. reflexivity.
  - intros key value Hget Hsc Hstr. unfold log_calls. simpl.
    rewrite (filter_dispatch _ _ _ _ _ (flatten_dict_wf _ _ _) Hget).
    now apply dispatch_scalar.
Qed.

(** C5, as amended: [log] raises nothing and logging [{"note": "hello"}]
    makes no call; for every entry, a leaf of the flattened entry that is
    not axes, figure, array or image and fails the scalar test of the code
    ([np.isscalar] false, or a string) has no call under its tag, and a leaf
    that is a figure, axes whose [get_figure()] is a figure, an array, an
    image or a number has exactly one, the call of the dispatch table,
    whatever else the entry holds. *)
Theorem tensorboard_unrecognized_skipped :
  fst (UnifiedExperiment_log self data w) = inr tt
  /\ (d = [("note", PyStr "hello")] ->
      calls_of (UnifiedExperiment_log self data) w = [])
  /\ (forall key value,
        dict_get (flattened d) key = Some value ->
        (ignored value = true ->
         List.filter (has_tag key) (calls_of (UnifiedExperiment_log self data) w) = [])
        /\ (recognized value = true ->
            exists c,
              leaf_dispatch exp (step_of d) (key, value) = [c]
              /\ List.filter (has_tag key)
                   (calls_of (UnifiedExperiment_log self data) w) = [c])).
Proof.
  rewrite (calls_of_log _ _ _ _ _ Hself Hdata).
  rewrite (log_run _ _ _ _ _ Hself Hdata). split; [reflexivity|]. split.
  - intros ->. reflexivity.
  - intros key value Hget. unfold log_calls. simpl.
    rewrite (filter_dispatch _ _ _ _ _ (flatten_dict_wf _ _ _) Hget). split.
    + apply dispatch_ignored.
    + intros Hrec.
      destruct (dispatch_recognized exp (step_of d) key value Hrec) as [c Hc].
      exists c. split; assumption.
Qed.

End TensorboardLog.

Lemma tensorboard_scalar_dispatch_witness :
  calls_of (UnifiedExperiment_log 0 1) (tensorboard_world [("loss", PyFloat 0.42)])
  = [add_scalar writer "loss" (PyFloat 0.42) PyNone].
Proof.
  apply (tensorboard_scalar_dispatch
           (tensorboard_world [("loss", PyFloat 0.42)]) 0 1 writer
           [("loss", PyFloat 0.42)]); reflexivity.
Defined.

Lemma tensorboard_unrecognized_skipped_witness :
  calls_of (UnifiedExperiment_log 0 1)
    (tensorboard_world [("note", PyStr "hello"); ("loss", PyFloat 0.42)])
  = [add_scalar writer "loss" (PyFloat 0.42) PyNone]
  /\ List.filter (has_tag "note")
       (calls_of (UnifiedExperiment_log 0 1)
          (tensorboard_world [("note", PyStr "hello"); ("loss", PyFloat 0.42)]))
     = [].
Proof.
  split; [reflexivity|].
  exact (proj1 (proj2 (proj2 (tensorboard_unrecognized_skipped
           (tensorboard_world [("note", PyStr "hello"); ("loss", PyFloat 0.42)])
           0 1 writer [("note", PyStr "hello"); ("loss", PyFloat 0.42)]
           eq_refl eq_refl)) "note" (PyStr "hello") eq_refl) eq_refl).
Defined.

(** C5 as it stands fails on the code.  A [bytes] leaf is of none of the
    recognized kinds, yet [np.isscalar] holds of it and it is not a string:
    [{"blob": b"abc"}] makes one call, [add_scalar].  Axes that sit on a
    sub-figure are of a recognized kind, yet [get_figure()] gives no figure
    and they are dropped: of [{"ax": axes, "loss": 0.42}] only the scalar is
    sent. *)
Lemma tensorboard_bytes_logged :
  recognized_kind (PyBytes "abc") = false
  /\ calls_of (UnifiedExperiment_log 0 1) (tensorboard_world [("blob", PyBytes "abc")])
     = [add_scalar writer "blob" (PyBytes "abc") PyNone]
  /\ recognized_kind (PyAxes (OnSubFigure 2)) = true
  /\ calls_of (UnifiedExperiment_log 0 1)
       (tensorboard_world [("ax", PyAxes (OnSubFigure 2)); ("loss", PyFloat 0.42)])
     = [add_scalar writer "loss" (PyFloat 0.42) PyNone].
Proof. repeat split. Qed.

(** ** The lifetime of a logger *)

Section Lifetime.

(** A logger built by the constructor, then any session of its caller. *)
Variables (backend : string) (kwargs : pydict) (w w1 : world) (self : loc).
Variable acts : list action.
Hypothesis Hinit : UnifiedLogger_init backend kwargs w = (inr self, w1).

(** C6: at any point of the logger's life and for every [params],
    [log_hyperparams] makes no call on the flat-stream backend and exactly
    one on the structured backend, [log_hyperparams(params)] on the
    [WandbLogger] the constructor built; it raises nothing. *)
Theorem log_hyperparams_calls (params : pyobj) :
  fst (log_hyperparams self params (run_session self acts w1)) = inr tt
  /\ (backend = "tensorboard" ->
      calls_of (log_hyperparams self params) (run_session self acts w1) = [])
  /\ (backend = "wandb" ->
      calls_of (log_hyperparams self params) (run_session self acts w1)
      = [logger_log_hyperparams (WandbLogger kwargs) params]).
Proof.
  destruct (session_keeps_logger _ _ _ _ _ acts Hinit) as (lg & Hlg & Hme & _).
  unfold calls_of, log_hyperparams.
  rewrite (bind_ok _ _ _ _ _ (load_logger_ok _ _ _ Hme)).
  split; [|split; intros ->];
    destruct Hlg as [[? ->]|[? ->]]; try discriminate; subst; simpl;
    try reflexivity.
  - now rewrite drop_all.
  - apply drop_app_length.
Qed.

(** C7: at any point of the logger's life, [close] makes exactly one call on
    the structured backend, [wandb.finish()], and none on the flat-stream
    backend; it raises nothing. *)
Theorem close_calls :
  fst (close self (run_session self acts w1)) = inr tt
  /\ (backend = "wandb" ->
      calls_of (close self) (run_session self acts w1) = [wandb_finish])
  /\ (backend = "tensorboard" ->
      calls_of (close self) (run_session self acts w1) = []).
Proof.
  destruct (session_keeps_logger _ _ _ _ _ acts Hinit) as (lg & Hlg & Hme & _).
  unfold calls_of, close.
  rewrite (bind_ok _ _ _ _ _ (load_logger_ok _ _ _ Hme)).
  split; [|split; intros ->]; simpl.
  - destruct Hlg as [[-> _]|[-> _]]; reflexivity.
  - apply drop_app_length.
  - now rewrite drop_all.
Qed.

(** C9: the selector the constructor stores, in the logger and in the adapter
    it wraps, is the one given at construction, and after any session of
    [log], [log_hyperparams], [log_metrics], [save] and [close] both objects
    are found with the attributes they were built with. *)
Theorem backend_selector_fixed :
  exists (me : UnifiedLogger.attrs) (adapter : UnifiedExperiment.attrs),
    heap w1 !! self = Some (OLogger me)
    /\ heap w1 !! UnifiedLogger._experiment me = Some (OExperiment adapter)
    /\ UnifiedLogger._backend me = backend
    /\ UnifiedExperiment._backend adapter = backend
    /\ heap (run_session self acts w1) !! self = Some (OLogger me)
    /\ heap (run_session self acts w1) !! UnifiedLogger._experiment me
       = Some (OExperiment adapter).
Proof.
  destruct (init_inv _ _ _ _ _ Hinit) as (lg & Hlg & Hme & Hexp).
  exists (built backend lg (length (heap w))),
    (UnifiedExperiment.Build backend (ExperimentOf lg)).
  repeat split; try assumption;
    (eapply stable_run_session; [eassumption | reflexivity]).
Qed.

End Lifetime.

(** A session for the examples: the caller builds an entry, logs it, logs
    metrics and saves. *)
Lemma log_hyperparams_calls_witness :
  calls_of (log_hyperparams 1 (PyDict [("lr", PyFloat 0.001)]))
    (run_session 1
       [NewEntry [("epoch", PyInt 5); ("loss", PyFloat 0.42)]; Call (Log 2);
        Call (LogMetrics (PyDict [("loss", PyFloat 0.42)]) (PyInt 1)); Call Save]
       (snd (UnifiedLogger_init "tensorboard" [] empty_world)))
  = [].
Proof.
  apply (log_hyperparams_calls "tensorboard" [] empty_world
           (snd (UnifiedLogger_init "tensorboard" [] empty_world)) 1);
    reflexivity.
Defined.

Lemma close_calls_witness :
  calls_of (close 1)
    (run_session 1
       [Call (LogHyperparams PyNone);
        NewEntry [("epoch", PyInt 5); ("loss", PyFloat 0.42)]; Call (Log 2);
        Call Save]
       (snd (UnifiedLogger_init "wandb" [] empty_world)))
  = [wandb_finish].
Proof.
  apply (close_calls "wandb" [] empty_world
           (snd (UnifiedLogger_init "wandb" [] empty_world)) 1);
    reflexivity.
Defined.

Lemma backend_selector_fixed_witness :
  exists (me : UnifiedLogger.attrs) (adapter : UnifiedExperiment.attrs),
    heap (snd (UnifiedLogger_init "wandb" [] empty_world)) !! 1 = Some (OLogger me)
    /\ heap (snd (UnifiedLogger_init "wandb" [] empty_world))
         !! UnifiedLogger._experiment me
       = Some (OExperiment adapter)
    /\ UnifiedLogger._backend me = "wandb"
    /\ UnifiedExperiment._backend adapter = "wandb"
    /\ heap (run_session 1
               [NewEntry [("epoch", PyInt 5); ("loss", PyFloat 0.42)]; Call (Log 2);
                Call (LogHyperparams PyNone); Call Save; Call Close]
               (snd (UnifiedLogger_init "wandb" [] empty_world))) !! 1
       = Some (OLogger me)
    /\ heap (run_session 1
               [NewEntry [("epoch", PyInt 5); ("loss", PyFloat 0.42)]; Call (Log 2);
                Call (LogHyperparams PyNone); Call Save; Call Close]
               (snd (UnifiedLogger_init "wandb" [] empty_world)))
         !! UnifiedLogger._experiment me
       = Some (OExperiment adapter).
Proof.
  apply (backend_selector_fixed "wandb" [] empty_world
           (snd (UnifiedLogger_init "wandb" [] empty_world)) 1).
  reflexivity.
Defined.

(** ** The caller's entry *)

(** C10: [log] writes the caller's own dictionary: afterwards it is the
    entry without its top-level ["epoch"], every other key bound as before;
    flattening and conversion went to a new dictionary, at a reference that
    did not exist before the call. *)
Theorem log_pops_epoch_from_caller (w : world) (self data : loc)
  (me : UnifiedExperiment.attrs) (d : pydict) :
  heap w !! self = Some (OExperiment me) ->
  heap w !! data = Some (ODict d) ->
  exists d' : pydict,
    heap (snd (UnifiedExperiment_log self data w)) !! data = Some (ODict d')
    /\ d' = dict_remove d "epoch"
    /\ dict_get d' "epoch" = None
    /\ (forall k, k <> "epoch" -> dict_get d' k = dict_get d k)
    /\ data < length (heap w)
    /\ heap (snd (UnifiedExperiment_log self data w)) !! length (heap w)
       = Some (ODict (payload_of (UnifiedExperiment._backend me) d)).
Proof.
  intros Hs Hd. exists (dict_remove d "epoch").
  rewrite (log_run _ _ _ _ _ Hs Hd). simpl.
  assert (Hlt : data < length (heap w)) by now apply lookup_lt_Some in Hd.
  repeat split.
  - rewrite lookup_app_l by now rewrite length_insert.
    now apply list_lookup_insert_eq.
  - apply dict_get_remove_eq.
  - intros k Hk. now apply dict_get_remove_ne.
  - exact Hlt.
  - rewrite <- (length_insert (heap w) data (ODict (dict_remove d "epoch"))).
    apply lookup_last.
Qed.

Lemma log_pops_epoch_from_caller_witness :
  heap (snd (UnifiedExperiment_log 0 1
               (wandb_world [("epoch", PyInt 5); ("fig", PyFigure 7);
                             ("group", PyDict [("loss", PyFloat 0.42)])])))
  = [wandb_adapter run;
     ODict [("fig", PyFigure 7); ("group", PyDict [("loss", PyFloat 0.42)])];
     ODict [("fig", WandbImage (PyFigure 7)); ("group/loss", PyFloat 0.42)]]
  /\ exists d' : pydict,
      heap (snd (UnifiedExperiment_log 0 1
                   (wandb_world [("epoch", PyInt 5); ("fig", PyFigure 7);
                                 ("group", PyDict [("loss", PyFloat 0.42)])]))) !! 1
      = Some (ODict d')
      /\ d' = dict_remove [("epoch", PyInt 5); ("fig", PyFigure 7);
                           ("group", PyDict [("loss", PyFloat 0.42)])] "epoch"
      /\ dict_get d' "epoch" = None
      /\ (forall k, k <> "epoch" ->
            dict_get d' k
            = dict_get [("epoch", PyInt 5); ("fig", PyFigure 7);
                        ("group", PyDict [("loss", PyFloat 0.42)])] k)
      /\ 1 < 2
      /\ heap (snd (UnifiedExperiment_log 0 1
                      (wandb_world [("epoch", PyInt 5); ("fig", PyFigure 7);
                                    ("group", PyDict [("loss", PyFloat 0.42)])]))) !! 2
         = Some (ODict (payload_of "wandb"
                          [("epoch", PyInt 5); ("fig", PyFigure 7);
                           ("group", PyDict [("loss", PyFloat 0.42)])])).
Proof.
  split; [reflexivity|].
  apply (log_pops_epoch_from_caller
           (wandb_world [("epoch", PyInt 5); ("fig", PyFigure 7);
                         ("group", PyDict [("loss", PyFloat 0.42)])])
           0 1 (UnifiedExperiment.Build "wandb" run)); reflexivity.
Defined.

(** * Further properties of the adapter *)

(** ** More facts about dictionaries *)

Lemma dict_get_set (d : pydict) (k k' : string) (v : pyobj) :
  dict_get (dict_set d k v) k' = if String.eqb k k' then Some v else dict_get d k'.
Proof.
  induction d as [|[k0 v0] d IH]; simpl; [reflexivity|].
  destruct (String.eqb_spec k0 k) as [->|Hne]; simpl.
  - now destruct (String.eqb k k').
  - rewrite IH. destruct (String.eqb_spec k0 k') as [->|Hne'];
      [|reflexivity].
    destruct (String.eqb_spec k k'); [congruence | reflexivity].
Qed.

Lemma dict_get_app (d1 d2 : pydict) (k : string) :
  dict_get (d1 ++ d2) k
  = match dict_get d1 k with Some v => Some v | None => dict_get d2 k end.
Proof.
  induction d1 as [|[k0 v0] d1 IH]; simpl; [reflexivity|].
  now destruct (String.eqb k0 k).
Qed.

Lemma dict_get_absent (d : pydict) (k : string) :
  ~ In k (keys d) -> dict_get d k = None.
Proof.
  induction d as [|[k0 v0] d IH]; simpl; [reflexivity|].
  intros Hk. destruct (String.eqb_spec k0 k) as [->|Hne].
  - exfalso. apply Hk. now left.
  - apply IH. intros Hin. apply Hk. now right.
Qed.

Lemma dict_get_present (d : pydict) (k : string) :
  In k (keys d) -> dict_get d k <> None.
Proof.
  induction d as [|[k0 v0] d IH]; simpl; [contradiction|].
  intros [->|Hin].
  - now rewrite String.eqb_refl.
  - destruct (String.eqb k0 k); [discriminate | now apply IH].
Qed.

(** In a dictionary the first binding of a key is also its last. *)
Lemma dict_get_rev (d : pydict) (k : string) :
  dict_wf d -> dict_get (rev d) k = dict_get d k.
Proof.
  unfold dict_wf. induction d as [|[k0 v0] d IH]; simpl; intros Hwf; [reflexivity|].
  apply NoDup_cons in Hwf as [Hk0 Hwf]. rewrite dict_get_app, IH by assumption.
  simpl. destruct (String.eqb_spec k0 k) as [->|Hne].
  - rewrite dict_get_absent; [reflexivity|].
    intros Hin. apply Hk0. now apply list_elem_of_In.
  - now destruct (dict_get d k).
Qed.

(** After [d.update(other)] a key holds its last value in [other], and its
    value in [d] when [other] has none. *)
Lemma dict_get_update (d other : pydict) (k : string) :
  dict_get (dict_update d other) k
  = match dict_get (rev other) k with Some v => Some v | None => dict_get d k end.
Proof.
  unfold dict_update. revert d.
  induction other as [|[k0 v0] other IH]; simpl; intros d; [reflexivity|].
  rewrite IH, dict_get_app, dict_get_set. simpl.
  destruct (dict_get (rev other) k); [reflexivity|].
  now destruct (String.eqb k0 k).
Qed.

Lemma dict_update_nil (d : pydict) : dict_wf d -> dict_update [] d = d.
Proof. intros Hwf. now rewrite dict_update_fresh. Qed.

Lemma dict_set_flat (d : pydict) (k : string) (v : pyobj) :
  flat d -> isinstance_dict v = false -> flat (dict_set d k v).
Proof.
  unfold flat. intros Hd Hv.
  induction Hd as [|[k0 v0] d Hv0 Hd IH]; simpl.
  - now repeat constructor.
  - destruct (String.eqb k0 k); constructor; assumption.
Qed.

Lemma dict_update_flat (d other : pydict) :
  flat d -> flat other -> flat (dict_update d other).
Proof.
  unfold dict_update. intros Hd Ho. revert d Hd.
  induction Ho as [|[k v] other Hv Ho IH]; simpl; intros d Hd; [assumption|].
  apply IH. now apply dict_set_flat.
Qed.

Lemma flatten_obj_flat (separator : string) (o : pyobj) :
  forall p, flat (flatten_obj o p separator).
Proof.
  induction o as [v Hv | entries IH] using pyobj_nested_ind; intros p.
  - destruct v; try constructor; discriminate.
  - change (flatten_obj (PyDict entries) p separator)
      with (fold_left (flatten_step p separator) entries []).
    assert (Hgen : forall items, flat items ->
              flat (fold_left (flatten_step p separator) entries items)).
    { induction IH as [|[k v] entries Hv _ IHentries]; simpl; intros items Hitems;
        [assumption|].
      apply IHentries. unfold flatten_step. simpl in *.
      destruct v; try (now apply dict_set_flat).
      apply dict_update_flat; [assumption | apply Hv]. }
    apply Hgen. constructor.
Qed.

Lemma fold_flatten_step_get (p separator : string) (k : string) (entries : pydict) :
  Forall (fun kv => forall p',
            dict_get (flatten_obj (snd kv) p' separator) k
            = dict_get (rev (visited (snd kv) p' separator)) k) entries ->
  forall items,
    dict_get (fold_left (flatten_step p separator) entries items) k
    = match dict_get (rev (flat_map (visited_step p separator) entries)) k with
      | Some v => Some v
      | None => dict_get items k
      end.
Proof.
  induction 1 as [|[k0 v0] entries Hv _ IH]; simpl; intros items; [reflexivity|].
  rewrite IH, rev_app_distr, dict_get_app.
  destruct (dict_get (rev (flat_map (visited_step p separator) entries)) k);
    [reflexivity|].
  unfold flatten_step, visited_step. cbn [fst snd] in *.
  destruct v0; try (rewrite dict_get_set; simpl; now destruct (String.eqb _ k)).
  rewrite dict_get_update, dict_get_rev, Hv;
    [reflexivity | apply (flatten_dict_wf items0)].
Qed.

Lemma flatten_obj_get (separator : string) (k : string) (o : pyobj) :
  forall p, dict_get (flatten_obj o p separator) k
            = dict_get (rev (visited o p separator)) k.
Proof.
  induction o as [v Hv | entries IH] using pyobj_nested_ind; intros p.
  - destruct v; try reflexivity; discriminate.
  - change (flatten_obj (PyDict entries) p separator)
      with (fold_left (flatten_step p separator) entries []).
    rewrite visited_unfold, (fold_flatten_step_get p separator k entries IH []).
    now destruct (dict_get _ k).
Qed.

Lemma dict_get_wandb_entry (d : pydict) (k : string) :
  dict_get (map wandb_entry d) k = wandb_value <$> dict_get d k.
Proof.
  induction d as [|[k0 v0] d IH]; simpl; [reflexivity|].
  now destruct (String.eqb k0 k).
Qed.

Lemma keys_dict_remove (d : pydict) (k : string) :
  keys (dict_remove d k) = List.filter (fun k' => negb (String.eqb k' k)) (keys d).
Proof.
  induction d as [|[k0 v0] d IH]; simpl; [reflexivity|].
  destruct (String.eqb k0 k); simpl; now rewrite IH.
Qed.

Lemma dict_remove_idem (d : pydict) (k : string) :
  dict_remove (dict_remove d k) k = dict_remove d k.
Proof. apply dict_remove_absent, dict_get_remove_eq. Qed.

Lemma dispatch_tags (exp : handle) (step : pyobj) (d : pydict) :
  map call_tag (flat_map (leaf_dispatch exp step) d) `sublist_of` map Some (keys d).
Proof.
  induction d as [|[k v] d IH]; simpl; [constructor|].
  rewrite List.map_app.
  destruct v as [ | b | n | x | re im | x | s | b | b | [f|sub|] | f | sub | a | i | src | src
                  | entries]; simpl;
    first [now apply sublist_skip | now apply sublist_cons].
Qed.

Lemma log_without_adapter (self data : loc) (w : world) (d : pydict) :
  heap w !! data = Some (ODict d) ->
  (forall me, heap w !! self <> Some (OExperiment me)) ->
  exists o,
    heap (snd (UnifiedExperiment_log self data w))
    = <[data := ODict (dict_remove d "epoch")]> (heap w) ++ [o].
Proof.
  intros Hd Hs. unfold UnifiedExperiment_log.
  rewrite (bind_ok _ _ _ _ _ (dict_pop_run data "epoch" PyNone w d Hd)).
  erewrite bind_ok;
    [|apply load_dict_ok; simpl; apply list_lookup_insert_eq;
      now apply lookup_lt_Some in Hd].
  unfold alloc at 1. unfold bind at 1. cbn [heap trace environ].
  unfold bind, load_experiment. cbn [heap trace environ].
  match goal with
  | |- context [(?h ++ [?o]) !! ?s] =>
      exists o; destruct ((h ++ [o]) !! s) as [[d1|me|a1]|] eqn:E;
        try reflexivity
  end.
  exfalso. apply lookup_app_Some in E as [E|[_ E]].
  - apply list_lookup_insert_Some in E as [(_ & E & _)|(_ & E)];
      [discriminate | now apply (Hs me)].
  - apply list_lookup_singleton_Some in E as [_ E]. discriminate.
Qed.

(** The heap one [log] leaves, on the adapter or on anything else. *)
Lemma log_heap_cases (self data : loc) (w : world) :
  heap (snd (UnifiedExperiment_log self data w)) = heap w
  \/ exists d o,
       heap w !! data = Some (ODict d)
       /\ heap (snd (UnifiedExperiment_log self data w))
          = <[data := ODict (dict_remove d "epoch")]> (heap w) ++ [o].
Proof.
  destruct (heap w !! data) as [[d|a|a]|] eqn:Hd;
    try (left; unfold UnifiedExperiment_log, dict_pop, bind, load_dict;
         rewrite Hd; reflexivity).
  right. exists d.
  destruct (heap w !! self) as [[d0|me|a]|] eqn:Hs;
    try (rewrite (log_run _ _ _ _ _ Hs Hd); eexists; split; reflexivity);
    (destruct (log_without_adapter self data w d Hd) as [o Ho];
     [intros me; rewrite Hs; congruence | exists o; split; [reflexivity | exact Ho]]).
Qed.

Lemma epoch_popped_refl (w : world) : epoch_popped w w.
Proof. intros l d H. now left. Qed.

Lemma epoch_popped_trans (w1 w2 w3 : world) :
  epoch_popped w1 w2 -> epoch_popped w2 w3 -> epoch_popped w1 w3.
Proof.
  intros H12 H23 l d H. destruct (H12 l d H) as [H2|H2];
    destruct (H23 _ _ H2) as [H3|H3]; auto.
  rewrite dict_remove_idem in H3. now right.
Qed.

Lemma epoch_popped_log (self data : loc) (w : world) :
  epoch_popped w (snd (UnifiedExperiment_log self data w)).
Proof.
  intros l d Hl.
  destruct (log_heap_cases self data w) as [->|(d0 & o & Hd & ->)]; [now left|].
  assert (Hlt : l < length (heap w)) by now apply lookup_lt_Some in Hl.
  rewrite lookup_app_l by now rewrite length_insert.
  destruct (decide (data = l)) as [->|Hne].
  - right. rewrite Hl in Hd. injection Hd as ->. now apply list_lookup_insert_eq.
  - left. now rewrite list_lookup_insert_ne.
Qed.

(** Apart from [log], no operation of the logger writes the heap. *)
Lemma heap_log_hyperparams (self : loc) (params : pyobj) (w : world) :
  heap (snd (log_hyperparams self params w)) = heap w.
Proof.
  unfold log_hyperparams, bind, load_logger.
  destruct (heap w !! self) as [[d|a|a]|]; try reflexivity.
  now destruct (UnifiedLogger.log_base_model a).
Qed.

Lemma heap_log_metrics (self : loc) (metrics step : pyobj) (w : world) :
  heap (snd (log_metrics self metrics step w)) = heap w.
Proof.
  unfold log_metrics, bind, load_logger.
  now destruct (heap w !! self) as [[d|a|a]|].
Qed.

Lemma heap_save (self : loc) (w : world) : heap (snd (save self w)) = heap w.
Proof.
  unfold save, bind, load_logger.
  destruct (heap w !! self) as [[d|a|a]|]; try reflexivity.
  now destruct (hasattr_save (UnifiedLogger._logger a)).
Qed.

Lemma heap_close (self : loc) (w : world) : heap (snd (close self w)) = heap w.
Proof.
  unfold close, bind, load_logger.
  destruct (heap w !! self) as [[d|a|a]|]; try reflexivity.
  now destruct (String.eqb (UnifiedLogger._backend a) "wandb").
Qed.

Lemma epoch_popped_action (self : loc) (a : action) (w : world) :
  epoch_popped w (snd (run_action self a w)).
Proof.
  destruct a as [d|[data|params|metrics step| | ]]; simpl.
  - intros l d0 H. left. simpl. now apply lookup_app_l_Some.
  - unfold UnifiedLogger_log, bind, load_logger.
    destruct (heap w !! self) as [[d|a|a]|]; try apply epoch_popped_refl.
    apply epoch_popped_log.
  - intros l d H. left. now rewrite heap_log_hyperparams.
  - intros l d H. left. now rewrite heap_log_metrics.
  - intros l d H. left. now rewrite heap_save.
  - intros l d H. left. now rewrite heap_close.
Qed.

Lemma epoch_popped_session (self : loc) (acts : list action) (w : world) :
  epoch_popped w (run_session self acts w).
Proof.
  revert w. induction acts as [|a acts IH]; intros w; simpl.
  - apply epoch_popped_refl.
  - eapply epoch_popped_trans; [apply epoch_popped_action | apply IH].
Qed.

(** X1: whatever the input, the parent key and the separator, the flattened
    mapping binds each key once and holds no nested mapping. *)
Theorem flatten_dict_output (d : pydict) (parent_key separator : string) :
  dict_wf (_flatten_dict d parent_key separator)
  /\ flat (_flatten_dict d parent_key separator).
Proof. split; [apply flatten_dict_wf | apply flatten_obj_flat]. Qed.

(** X2: flattening a flattened mapping again, with any separator, returns
    it unchanged. *)
Theorem flatten_dict_idempotent (d : pydict) (parent_key separator separator' : string) :
  _flatten_dict (_flatten_dict d parent_key separator) "" separator'
  = _flatten_dict d parent_key separator.
Proof.
  pose proof (flatten_dict_wf d parent_key separator) as Hwf.
  pose proof (flatten_obj_flat separator (PyDict d) parent_key) as Hflat.
  fold (_flatten_dict d parent_key separator) in Hflat.
  unfold _flatten_dict at 1.
  rewrite flatten_obj_visited; rewrite visited_flat; trivial.
Qed.

(** X3: when no top-level key that holds a nested mapping is empty, the value
    the flattened mapping holds under a key is that of the last leaf, in
    traversal order, whose path joins to that key, and a key no path joins to
    is absent. *)
Theorem flatten_dict_last_wins (d : pydict) (separator key : string) :
  (forall k v, In (k, v) d -> isinstance_dict v = true -> k <> "") ->
  dict_get (_flatten_dict d "" separator) key
  = dict_get (rev (flatten_spec d separator)) key.
Proof.
  intros Htop. unfold _flatten_dict.
  now rewrite flatten_obj_get, visited_top.
Qed.

Lemma flatten_dict_last_wins_witness :
  dict_get (_flatten_dict [("a", PyDict [("b", PyInt 1)]); ("a/b", PyInt 2)] "" "/") "a/b"
  = Some (PyInt 2).
Proof.
  refine (eq_trans
            (flatten_dict_last_wins
               [("a", PyDict [("b", PyInt 1)]); ("a/b", PyInt 2)] "/" "a/b" _)
            eq_refl).
  intros k v [[= <- <-]|[[= <- <-]|[]]]; discriminate.
Defined.

(** X4: flattening a mapping with the single entry [k : d] is flattening
    [d] with the key of [k] as parent key; under the empty parent key and
    [k = ""] that is flattening [d] itself, without any prefix. *)
Theorem flatten_dict_nested (k : string) (d : pydict) (parent_key separator : string) :
  _flatten_dict [(k, PyDict d)] parent_key separator
  = _flatten_dict d (new_key parent_key separator k) separator.
Proof.
  rewrite flatten_dict_unfold. simpl. unfold flatten_step. cbn [fst snd].
  apply dict_update_nil. apply (flatten_dict_wf d).
Qed.

(** X5: an empty nested mapping leaves nothing in the flattened mapping,
    wherever it stands in the entry. *)
Theorem flatten_dict_empty_nested (d1 d2 : pydict) (k parent_key separator : string) :
  _flatten_dict (d1 ++ (k, PyDict []) :: d2) parent_key separator
  = _flatten_dict (d1 ++ d2) parent_key separator.
Proof. rewrite !flatten_dict_unfold, !fold_left_app. reflexivity. Qed.

(** X6: the constructor of the adapter takes any backend selector; with one
    that is neither ["wandb"] nor ["tensorboard"], [log] raises nothing and
    makes no call, and still removes the top-level ["epoch"] from the
    caller's dictionary. *)
Theorem log_unrecognized_backend (exp : handle) (backend : string) (w : world)
  (data : loc) (d : pydict) :
  heap w !! data = Some (ODict d) ->
  backend <> "wandb" -> backend <> "tensorboard" ->
  fst ((self <- UnifiedExperiment_init exp backend ;;
        UnifiedExperiment_log self data) w) = inr tt
  /\ trace (snd ((self <- UnifiedExperiment_init exp backend ;;
                  UnifiedExperiment_log self data) w)) = trace w
  /\ heap (snd ((self <- UnifiedExperiment_init exp backend ;;
                 UnifiedExperiment_log self data) w)) !! data
     = Some (ODict (dict_remove d "epoch")).
Proof.
  intros Hd Hw Ht.
  set (me := UnifiedExperiment.Build backend exp).
  set (w1 := World (heap w ++ [OExperiment me]) (trace w) (environ w)).
  assert (Hrun : (self <- UnifiedExperiment_init exp backend ;;
                  UnifiedExperiment_log self data) w
                 = UnifiedExperiment_log (length (heap w)) data w1) by reflexivity.
  rewrite Hrun. clear Hrun.
  assert (Hs : heap w1 !! length (heap w) = Some (OExperiment me)) by apply lookup_last.
  assert (Hd1 : heap w1 !! data = Some (ODict d)) by now apply lookup_app_l_Some.
  rewrite (log_run _ _ _ _ _ Hs Hd1). cbn [fst snd heap trace].
  unfold log_calls. cbn [UnifiedExperiment._backend me].
  apply String.eqb_neq in Hw, Ht. rewrite Hw, Ht, app_nil_r.
  repeat split.
  assert (Hlt : data < length (heap w1)) by now apply lookup_lt_Some in Hd1.
  rewrite lookup_app_l by now rewrite length_insert.
  now apply list_lookup_insert_eq.
Qed.

Lemma log_unrecognized_backend_witness :
  trace (snd ((self <- UnifiedExperiment_init run "mlflow" ;;
               UnifiedExperiment_log self 0)
                (World [ODict [("epoch", PyInt 5); ("loss", PyFloat 0.42)]] [] [])))
  = []
  /\ heap (snd ((self <- UnifiedExperiment_init run "mlflow" ;;
                 UnifiedExperiment_log self 0)
                  (World [ODict [("epoch", PyInt 5); ("loss", PyFloat 0.42)]] [] []))) !! 0
     = Some (ODict [("loss", PyFloat 0.42)]).
Proof.
  exact (proj2 (log_unrecognized_backend run "mlflow"
           (World [ODict [("epoch", PyInt 5); ("loss", PyFloat 0.42)]] [] [])
           0 [("epoch", PyInt 5); ("loss", PyFloat 0.42)] eq_refl
           ltac:(discriminate) ltac:(discriminate))).
Defined.

Section LogOnce.

Variables (w : world) (self data : loc) (exp : handle) (d : pydict).
Hypothesis Hdata : heap w !! data = Some (ODict d).

(** X7: on the structured backend [log] returns after exactly one call,
    [Run.log(payload)]; the payload is the new dictionary, it has the keys of
    the flattened entry in the same order, and under each key the flattened
    value [v], or [wandb.Image(v')] when [v'] is a figure or an image, [v']
    being [v.get_figure()] for axes and [v] otherwise; so axes on a
    sub-figure or on nothing are forwarded as they are. *)
Theorem wandb_log_payload :
  heap w !! self = Some (wandb_adapter exp) ->
  exists payload : pydict,
    UnifiedExperiment_log self data w
    = (inr tt,
       World (<[data := ODict (dict_remove d "epoch")]> (heap w) ++ [ODict payload])
         (trace w ++ [experiment_log exp payload]) (environ w))
    /\ keys payload = keys (flattened d)
    /\ (forall key, dict_get payload key = wandb_value <$> dict_get (flattened d) key)
    /\ (forall v,
          wandb_value v
          = let v' := if isinstance_Axes v then get_figure v else v in
            if isinstance_Figure v' || isinstance_Image v' then wandb_Image v' else v).
Proof.
  intros Hself. exists (map wandb_entry (flattened d)).
  rewrite (log_run _ _ _ _ _ Hself Hdata). repeat split.
  - apply keys_wandb_entry.
  - intros key. apply dict_get_wandb_entry.
  - intros v.
    destruct v as [ | b | n | x | re im | x | s | b | b | [f|sub|] | f | sub | a | i
                  | src | src | entries]; reflexivity.
Qed.

(** X8: on the flat-stream backend every call of one [log] carries as
    global step the value the entry held under ["epoch"], [None] when the
    entry had no such key. *)
Theorem tensorboard_calls_carry_step :
  heap w !! self = Some (tensorboard_adapter exp) ->
  Forall (fun c => call_step c = Some (default PyNone (dict_get d "epoch")))
    (calls_of (UnifiedExperiment_log self data) w).
Proof.
  intros Hself. rewrite (calls_of_log _ _ _ _ _ Hself Hdata). apply dispatch_step.
Qed.

(** X9: on the flat-stream backend the calls of one [log] follow the order
    of the flattened entry, with at most one call per key. *)
Theorem tensorboard_calls_in_order :
  heap w !! self = Some (tensorboard_adapter exp) ->
  map call_tag (calls_of (UnifiedExperiment_log self data) w)
    `sublist_of` map Some (keys (flattened d)).
Proof.
  intros Hself. rewrite (calls_of_log _ _ _ _ _ Hself Hdata). apply dispatch_tags.
Qed.

(** X10: logging the same dictionary object a second time on the
    flat-stream backend repeats the calls of the first time with the step
    [None]: the first [log] consumed the ["epoch"] of the caller's
    dictionary. *)
Theorem tensorboard_second_log_has_no_step :
  heap w !! self = Some (tensorboard_adapter exp) ->
  calls_of (UnifiedExperiment_log self data) w
  = flat_map (leaf_dispatch exp (step_of d)) (flattened d)
  /\ calls_of (UnifiedExperiment_log self data)
       (snd (UnifiedExperiment_log self data w))
     = flat_map (leaf_dispatch exp PyNone) (flattened d).
Proof.
  intros Hself. split; [now rewrite (calls_of_log _ _ _ _ _ Hself Hdata)|].
  assert (Hne : data <> self) by (intros ->; unfold tensorboard_adapter in *; congruence).
  assert (Hlt : data < length (heap w)) by now apply lookup_lt_Some in Hdata.
  assert (Hlt' : self < length (heap w)) by now apply lookup_lt_Some in Hself.
  rewrite (log_run _ _ _ _ _ Hself Hdata). cbn [snd].
  set (w' := World _ _ _).
  assert (Hself' : heap w' !! self = Some (tensorboard_adapter exp)).
  { simpl. rewrite lookup_app_l by now rewrite length_insert.
    rewrite list_lookup_insert_ne by assumption. exact Hself. }
  assert (Hdata' : heap w' !! data = Some (ODict (dict_remove d "epoch"))).
  { simpl. rewrite lookup_app_l by now rewrite length_insert.
    now apply list_lookup_insert_eq. }
  rewrite (calls_of_log _ _ _ _ _ Hself' Hdata').
  unfold log_calls, step_of, flattened.
  rewrite dict_remove_idem, dict_get_remove_eq. reflexivity.
Qed.

End LogOnce.

Lemma wandb_log_payload_witness :
  exists payload : pydict,
    UnifiedExperiment_log 0 1
      (wandb_world [("epoch", PyInt 5); ("fig", PyAxes (OnFigure 7));
                    ("sub", PyAxes (OnSubFigure 2)); ("loss", PyFloat 0.42)])
    = (inr tt,
       World [wandb_adapter run;
              ODict [("fig", PyAxes (OnFigure 7)); ("sub", PyAxes (OnSubFigure 2));
                     ("loss", PyFloat 0.42)];
              ODict payload]
         [experiment_log run payload] [])
    /\ keys payload = ["fig"; "sub"; "loss"]
    /\ (forall key,
          dict_get payload key
          = wandb_value
              <$> dict_get [("fig", PyAxes (OnFigure 7)); ("sub", PyAxes (OnSubFigure 2));
                            ("loss", PyFloat 0.42)] key)
    /\ (forall v,
          wandb_value v
          = let v' := if isinstance_Axes v then get_figure v else v in
            if isinstance_Figure v' || isinstance_Image v' then wandb_Image v' else v).
Proof.
  exact (wandb_log_payload
           (wandb_world [("epoch", PyInt 5); ("fig", PyAxes (OnFigure 7));
                         ("sub", PyAxes (OnSubFigure 2)); ("loss", PyFloat 0.42)])
           0 1 run _ eq_refl eq_refl).
Defined.

Lemma tensorboard_calls_carry_step_witness :
  Forall (fun c => call_step c = Some (PyInt 5))
    (calls_of (UnifiedExperiment_log 0 1)
       (tensorboard_world [("epoch", PyInt 5); ("fig", PyFigure 7);
                           ("loss", PyFloat 0.42)])).
Proof.
  exact (tensorboard_calls_carry_step
           (tensorboard_world [("epoch", PyInt 5); ("fig", PyFigure 7);
                               ("loss", PyFloat 0.42)])
           0 1 writer _ eq_refl eq_refl).
Defined.

Lemma tensorboard_calls_in_order_witness :
  map call_tag
    (calls_of (UnifiedExperiment_log 0 1)
       (tensorboard_world [("b", PyInt 1); ("note", PyStr "hello"); ("a", PyInt 2)]))
    `sublist_of` [Some "b"; Some "note"; Some "a"].
Proof.
  exact (tensorboard_calls_in_order
           (tensorboard_world [("b", PyInt 1); ("note", PyStr "hello"); ("a", PyInt 2)])
           0 1 writer _ eq_refl eq_refl).
Defined.

Lemma tensorboard_second_log_has_no_step_witness :
  calls_of (UnifiedExperiment_log 0 1)
    (tensorboard_world [("epoch", PyInt 5); ("loss", PyFloat 0.42)])
  = [add_scalar writer "loss" (PyFloat 0.42) (PyInt 5)]
  /\ calls_of (UnifiedExperiment_log 0 1)
       (snd (UnifiedExperiment_log 0 1
               (tensorboard_world [("epoch", PyInt 5); ("loss", PyFloat 0.42)])))
     = [add_scalar writer "loss" (PyFloat 0.42) PyNone].
Proof.
  exact (tensorboard_second_log_has_no_step
           (tensorboard_world [("epoch", PyInt 5); ("loss", PyFloat 0.42)])
           0 1 writer _ eq_refl eq_refl).
Defined.

(** X16: whatever the caller does with a logger (or with anything else
    taken for one), a dictionary that was in the heap has afterwards the
    top-level keys it had, in the same order, but for its own ["epoch"],
    which may be gone; and every other key that was bound to a value that is
    not a mapping is still bound to that value.  No key is ever added, none
    but ["epoch"] removed, no such value rewritten. *)
Theorem session_only_pops_epoch (self : loc) (acts : list action) (w : world)
  (l : loc) (d : pydict) :
  heap w !! l = Some (ODict d) ->
  exists d' : pydict,
    heap (run_session self acts w) !! l = Some (ODict d')
    /\ (keys d' = keys d
        \/ keys d' = List.filter (fun k => negb (String.eqb k "epoch")) (keys d))
    /\ (forall k v,
          k <> "epoch" -> isinstance_dict v = false ->
          dict_get d k = Some v -> dict_get d' k = Some v).
Proof.
  intros Hl. destruct (epoch_popped_session self acts w l d Hl) as [H|H].
  - exists d. repeat split; auto.
  - exists (dict_remove d "epoch"). repeat split; [exact H | | ].
    + right. apply keys_dict_remove.
    + intros k v Hk _ Hget. now rewrite dict_get_remove_ne.
Qed.

Lemma session_only_pops_epoch_witness :
  exists d' : pydict,
    heap (run_session 2
            [Call (Log 0); Call (LogMetrics (PyDict [("x", PyInt 1)]) PyNone);
             Call (Log 0); Call Close]
            (snd (UnifiedLogger_init "wandb" []
                    (World [ODict [("epoch", PyInt 5); ("fig", PyFigure 7);
                                   ("grp", PyDict [("epoch", PyInt 1)])]] [] [])))) !! 0
    = Some (ODict d')
    /\ (keys d' = ["epoch"; "fig"; "grp"] \/ keys d' = ["fig"; "grp"])
    /\ (forall k v,
          k <> "epoch" -> isinstance_dict v = false ->
          dict_get [("epoch", PyInt 5); ("fig", PyFigure 7);
                    ("grp", PyDict [("epoch", PyInt 1)])] k = Some v ->
          dict_get d' k = Some v).
Proof.
  exact (session_only_pops_epoch 2 _
           (snd (UnifiedLogger_init "wandb" []
                   (World [ODict [("epoch", PyInt 5); ("fig", PyFigure 7);
                                  ("grp", PyDict [("epoch", PyInt 1)])]] [] [])))
           0 _ eq_refl).
Defined.

(** X14: [log_hyperparams], [log_metrics], [save], [close] and the
    [experiment] property write no object: the heap, with every dictionary
    of the caller, is as before, whether they return or raise. *)
Theorem facade_operations_keep_heap (self : loc) (w : world)
  (params metrics step : pyobj) :
  heap (snd (log_hyperparams self params w)) = heap w
  /\ heap (snd (log_metrics self metrics step w)) = heap w
  /\ heap (snd (save self w)) = heap w
  /\ heap (snd (close self w)) = heap w
  /\ heap (snd (experiment self w)) = heap w.
Proof.
  repeat split;
    [apply heap_log_hyperparams | apply heap_log_metrics | apply heap_save
    | apply heap_close |].
  unfold experiment, bind, load_logger.
  now destruct (heap w !! self) as [[d|a|a]|].
Qed.

Section Built.

Variables (backend : string) (kwargs : pydict) (w w1 : world) (self : loc).
Variable acts : list action.
Hypothesis Hinit : UnifiedLogger_init backend kwargs w = (inr self, w1).

(** X13: at any point of the logger's life, on both backends, [log_metrics]
    returns after exactly one call, [log_metrics(metrics, step)] on the
    backend logger the constructor built, with both arguments as given (an
    ["epoch"] inside [metrics] is not popped), and writes no object. *)
Theorem log_metrics_forwards (metrics step : pyobj) :
  exists lg,
    (backend = "wandb" /\ lg = WandbLogger kwargs
     \/ backend = "tensorboard" /\ lg = TensorBoardLogger kwargs)
    /\ log_metrics self metrics step (run_session self acts w1)
       = (inr tt,
          World (heap (run_session self acts w1))
            (trace (run_session self acts w1) ++ [logger_log_metrics lg metrics step])
            (environ (run_session self acts w1))).
Proof.
  destruct (session_keeps_logger _ _ _ _ _ acts Hinit) as (lg & Hlg & Hme & _).
  exists lg. split; [exact Hlg|].
  unfold log_metrics.
  now rewrite (bind_ok _ _ _ _ _ (load_logger_ok _ _ _ Hme)).
Qed.

(** X15: at any point of the logger's life, [logger.experiment.log(data)]
    and [logger.log(data)] are the same computation, and its calls go to the
    experiment handle of the backend logger the constructor built from
    [kwargs]. *)
Theorem facade_log_delegates (data : loc) (d : pydict) :
  heap (run_session self acts w1) !! data = Some (ODict d) ->
  (a <- experiment self ;; UnifiedExperiment_log a data) (run_session self acts w1)
  = UnifiedLogger_log self data (run_session self acts w1)
  /\ (backend = "tensorboard" ->
      calls_of (UnifiedLogger_log self data) (run_session self acts w1)
      = flat_map (leaf_dispatch (ExperimentOf (TensorBoardLogger kwargs)) (step_of d))
          (flattened d))
  /\ (backend = "wandb" ->
      calls_of (UnifiedLogger_log self data) (run_session self acts w1)
      = [experiment_log (ExperimentOf (WandbLogger kwargs))
           (map wandb_entry (flattened d))]).
Proof.
  intros Hdata.
  destruct (session_keeps_logger _ _ _ _ _ acts Hinit) as (lg & Hlg & Hme & Hexp).
  split.
  { unfold experiment, UnifiedLogger_log, bind, ret.
    now rewrite (load_logger_ok _ _ _ Hme). }
  assert (Hcalls : calls_of (UnifiedLogger_log self data) (run_session self acts w1)
                   = log_calls (UnifiedExperiment.Build backend (ExperimentOf lg)) d).
  { unfold calls_of, UnifiedLogger_log.
    rewrite (bind_ok _ _ _ _ _ (load_logger_ok _ _ _ Hme)).
    apply (calls_of_log _ _ _ _ _ Hexp Hdata). }
  rewrite Hcalls.
  split; intros ->; destruct Hlg as [[? ->]|[? ->]]; try discriminate; reflexivity.
Qed.

End Built.

Lemma log_metrics_forwards_witness :
  exists lg,
    ("tensorboard" = "wandb" /\ lg = WandbLogger []
     \/ "tensorboard" = "tensorboard" /\ lg = TensorBoardLogger [])
    /\ log_metrics 1 (PyDict [("epoch", PyInt 5); ("loss", PyFloat 0.42)]) (PyInt 3)
         (snd (UnifiedLogger_init "tensorboard" [] empty_world))
       = (inr tt,
          World (heap (snd (UnifiedLogger_init "tensorboard" [] empty_world)))
            ([TensorBoardLogger_new []]
               ++ [logger_log_metrics lg
                     (PyDict [("epoch", PyInt 5); ("loss", PyFloat 0.42)]) (PyInt 3)])
            []).
Proof.
  exact (log_metrics_forwards "tensorboard" [] empty_world
           (snd (UnifiedLogger_init "tensorboard" [] empty_world)) 1 [] eq_refl
           (PyDict [("epoch", PyInt 5); ("loss", PyFloat 0.42)]) (PyInt 3)).
Defined.

Lemma facade_log_delegates_witness :
  calls_of (UnifiedLogger_log 2 0)
    (snd (UnifiedLogger_init "tensorboard" [("save_dir", PyStr "logs")]
            (World [ODict [("epoch", PyInt 5); ("loss", PyFloat 0.42)]] [] [])))
  = [add_scalar (ExperimentOf (TensorBoardLogger [("save_dir", PyStr "logs")]))
       "loss" (PyFloat 0.42) (PyInt 5)].
Proof.
  exact (proj1 (proj2 (facade_log_delegates "tensorboard" [("save_dir", PyStr "logs")]
           (World [ODict [("epoch", PyInt 5); ("loss", PyFloat 0.42)]] [] [])
           (snd (UnifiedLogger_init "tensorboard" [("save_dir", PyStr "logs")]
                   (World [ODict [("epoch", PyInt 5); ("loss", PyFloat 0.42)]] [] [])))
           2 [] eq_refl 0 [("epoch", PyInt 5); ("loss", PyFloat 0.42)] eq_refl))
         eq_refl).
Defined.
